(** * provider-orchard: the WebSocket-SSH tunnel layer (package [internal/ssh])

    A shallow embedding of [options.go], [tunnel.go], [session.go], of the
    [wsNetConn] stream adapter and of the cloud-init part of the VM
    controller, with the properties of the layer proved on it.
    Go strings are byte sequences and are modelled by [string] (a list
    of 8-bit [ascii]); Go [int] values by [Z]; a Go [map] by stdpp's [gmap]
    together with the order in which a [range] loop visits its entries. *)

From Stdlib Require Import ZArith String Ascii List Bool Lia.
From Stdlib Require Import DecimalString.
From stdpp Require Import gmap strings.
Import ListNotations.

Local Open Scope Z_scope.
Local Open Scope list_scope.
Local Open Scope string_scope.

(** ** Functions of the Go standard library the package calls *)

Module GoStr.

(** [strings.HasPrefix s p]. *)
Fixpoint HasPrefix (s p : string) {struct p} : bool :=
  match p, s with
  | EmptyString, _ => true
  | String a p', String b s' => Ascii.eqb a b && HasPrefix s' p'
  | String _ _, EmptyString => false
  end.

(** [strings.Contains s sub]. *)
Fixpoint Contains (s sub : string) : bool :=
  HasPrefix s sub ||
  match s with
  | EmptyString => false
  | String _ s' => Contains s' sub
  end.

(** [strings.Count s sub] for a one-byte [sub]. *)
Fixpoint CountByte (s : string) (c : ascii) : nat :=
  match s with
  | EmptyString => O
  | String a s' => ((if Ascii.eqb a c then 1 else 0) + CountByte s' c)%nat
  end.

(** [strings.Cut s sep] for a one-byte separator: the text before the
    first [sep], the text after it, and whether [sep] occurs. *)
Fixpoint CutByte (s : string) (sep : ascii) : string * string * bool :=
  match s with
  | EmptyString => (EmptyString, EmptyString, false)
  | String a s' =>
      if Ascii.eqb a sep then (EmptyString, s', true)
      else let '(before, after, found) := CutByte s' sep in
           (String a before, after, found)
  end.

(** The split at the last occurrence of a byte, as the callers of
    [strings.LastIndex] use it: [None] when the byte does not occur,
    otherwise the text before and the text after it. *)
Fixpoint CutLastByte (s : string) (sep : ascii) : option (string * string) :=
  match s with
  | EmptyString => None
  | String a s' =>
      match CutLastByte s' sep with
      | Some (before, after) => Some (String a before, after)
      | None => if Ascii.eqb a sep then Some (EmptyString, s') else None
      end
  end.

(** [strings.ReplaceAll s old new] for a non-empty [old]: occurrences
    are replaced from left to right and do not overlap.  [skip] counts
    the bytes of a matched occurrence that are still to be passed over. *)
Fixpoint replaceFrom (skip : nat) (s old new : string) : string :=
  match s with
  | EmptyString => EmptyString
  | String a s' =>
      match skip with
      | S k => replaceFrom k s' old new
      | O =>
          if HasPrefix s old
          then new ++ replaceFrom (Nat.pred (String.length old)) s' old new
          else String a (replaceFrom O s' old new)
      end
  end.

Definition ReplaceAll (s old new : string) : string :=
  replaceFrom O s old new.

Definition lowerByte (c : ascii) : ascii :=
  let n := nat_of_ascii c in
  if (65 <=? n)%nat && (n <=? 90)%nat then ascii_of_nat (n + 32) else c.

(** [strings.ToLower] on ASCII text. *)
Fixpoint ToLower (s : string) : string :=
  match s with
  | EmptyString => EmptyString
  | String a s' => String (lowerByte a) (ToLower s')
  end.

(** The verb [%d] of [fmt.Sprintf] on an [int]. *)
Definition Itoa (z : Z) : string :=
  NilZero.string_of_int (Z.to_int z).

Definition isDigit (c : ascii) : bool :=
  let n := nat_of_ascii c in (48 <=? n)%nat && (n <=? 57)%nat.

Definition isAlpha (c : ascii) : bool :=
  let n := nat_of_ascii (lowerByte c) in (97 <=? n)%nat && (n <=? 122)%nat.

Definition isHex (c : ascii) : bool :=
  let n := nat_of_ascii (lowerByte c) in
  isDigit c || ((97 <=? n)%nat && (n <=? 102)%nat).

Definition unhex (c : ascii) : nat :=
  let n := nat_of_ascii (lowerByte c) in
  if isDigit c then (n - 48)%nat else (n - 87)%nat.

Definition upperhex (n : nat) : ascii :=
  if (n <? 10)%nat then ascii_of_nat (48 + n) else ascii_of_nat (55 + n).

Fixpoint allb (f : ascii -> bool) (s : string) : bool :=
  match s with
  | EmptyString => true
  | String a s' => f a && allb f s'
  end.

Definition existsb (f : ascii -> bool) (s : string) : bool :=
  negb (allb (fun c => negb (f c)) s).
Definition lowerhex (n : nat) : ascii :=
  if (n <? 10)%nat then ascii_of_nat (48 + n) else ascii_of_nat (87 + n).

(** [strconv.Quote], the verb [%q] of [fmt]: exact on ASCII text; a byte
    above 0x7f is copied, which is what the library does for the
    printable characters of well-formed UTF-8. *)
Definition quoteByte (c : ascii) : string :=
  let n := nat_of_ascii c in
  let esc (x : ascii) := String (ascii_of_nat 92) (String x EmptyString) in
  if (n =? 34)%nat then esc (ascii_of_nat 34)
  else if (n =? 92)%nat then esc (ascii_of_nat 92)
  else if (n =? 7)%nat then esc "a"%char
  else if (n =? 8)%nat then esc "b"%char
  else if (n =? 12)%nat then esc "f"%char
  else if (n =? 10)%nat then esc "n"%char
  else if (n =? 13)%nat then esc "r"%char
  else if (n =? 9)%nat then esc "t"%char
  else if (n =? 11)%nat then esc "v"%char
  else if (n <? 32)%nat || (n =? 127)%nat then
    String (ascii_of_nat 92) (String "x" (String (lowerhex (n / 16))
                               (String (lowerhex (n mod 16)) EmptyString)))
  else String c EmptyString.

Fixpoint quoteBody (s : string) : string :=
  match s with
  | EmptyString => EmptyString
  | String c s' => quoteByte c ++ quoteBody s'
  end.

Definition Quote (s : string) : string :=
  String (ascii_of_nat 34) (quoteBody s ++ String (ascii_of_nat 34) EmptyString).

End GoStr.

(** ** [net/url]: the parts of the library [buildWebSocketURL] relies on *)

Module NetURL.
Import GoStr.

(** A value or the text of the library's error. *)
Inductive res (A : Type) : Type :=
| Ok (a : A)
| Err (reason : string).
Arguments Ok {A} a.
Arguments Err {A} reason.

Definition bind {A B} (r : res A) (k : A -> res B) : res B :=
  match r with
  | Ok a => k a
  | Err e => Err e
  end.

Notation "x <- r ;; k" := (bind r (fun x => k))
  (at level 100, r at next level, right associativity, only parsing).

(** The fields of [url.URL] that [url.Parse] fills. *)
Record URL := mkURL {
  Scheme : string;
  Opaque : string;
  User : option string;
  Host : string;
  Path : string;
  ForceQuery : bool;
  RawQuery : string;
  Fragment : string
}.

Definition byteIn (c : ascii) (set : string) : bool :=
  existsb (Ascii.eqb c) set.

(** [shouldEscape c encodePathSegment]: unreserved bytes stay, and of the
    reserved ones only [/ ; , ?] are escaped inside a path segment. *)
Definition shouldEscapeSegment (c : ascii) : bool :=
  if isAlpha c || isDigit c then false
  else if byteIn c "-_.~" then false
  else if byteIn c "$&+,/:;=?@" then byteIn c "/;,?"
  else true.

(** [url.PathEscape]: [%XX] with upper-case hex digits for every byte
    that [shouldEscapeSegment] selects. *)
Fixpoint PathEscape (s : string) : string :=
  match s with
  | EmptyString => EmptyString
  | String c s' =>
      if shouldEscapeSegment c
      then String "%" (String (upperhex (nat_of_ascii c / 16))
                        (String (upperhex (nat_of_ascii c mod 16))
                           (PathEscape s')))
      else String c (PathEscape s')
  end.

(** [getScheme]: the scheme (empty when the text has none) and the rest. *)
Fixpoint getSchemeFrom (first : bool) (s : string) (acc : string -> string)
  (whole : string) : res (string * string) :=
  match s with
  | EmptyString => Ok (EmptyString, whole)
  | String c s' =>
      if isAlpha c then getSchemeFrom false s' (fun t => acc (String c t)) whole
      else if isDigit c || byteIn c "+-." then
        if first then Ok (EmptyString, whole)
        else getSchemeFrom false s' (fun t => acc (String c t)) whole
      else if Ascii.eqb c ":" then
        if first then Err "missing protocol scheme" else Ok (acc EmptyString, s')
      else Ok (EmptyString, whole)
  end.

Definition getScheme (rawURL : string) : res (string * string) :=
  getSchemeFrom true rawURL (fun t => t) rawURL.

Definition EscapeError (s : string) : string :=
  "invalid URL escape " ++ Quote (String.substring 0 3 s).

Definition InvalidHostError (c : ascii) : string :=
  "invalid character " ++ Quote (String c EmptyString) ++ " in host name".

(** [unescape] in the modes that decode every well-formed [%XX]
    (path, fragment, user info). *)
Fixpoint unescape (s : string) : res string :=
  match s with
  | EmptyString => Ok EmptyString
  | String c s1 =>
      if Ascii.eqb c "%" then
        match s1 with
        | String a (String b s3) =>
            if isHex a && isHex b then
              t <- unescape s3 ;;
              Ok (String (ascii_of_nat (unhex a * 16 + unhex b)) t)
            else Err (EscapeError s)
        | _ => Err (EscapeError s)
        end
      else t <- unescape s1 ;; Ok (String c t)
  end.

(** [shouldEscape c encodeHost] on an ASCII byte. *)
Definition shouldEscapeHost (c : ascii) : bool :=
  negb (isAlpha c || isDigit c || byteIn c "-_.~"
        || byteIn c "!$&'()*+,;=:[]<>" || Ascii.eqb c (ascii_of_nat 34)).

(** [unescape] in host mode: an escape stands for a byte above 0x7f or is
    [%25], and an ASCII byte must be one a host name may contain. *)
Fixpoint unescapeHost (s : string) : res string :=
  match s with
  | EmptyString => Ok EmptyString
  | String c s1 =>
      if Ascii.eqb c "%" then
        match s1 with
        | String a (String b s3) =>
            if isHex a && isHex b then
              if (unhex a <? 8)%nat
                 && negb (Ascii.eqb a "2" && Ascii.eqb b "5")
              then Err (EscapeError s)
              else
                t <- unescapeHost s3 ;;
                Ok (String (ascii_of_nat (unhex a * 16 + unhex b)) t)
            else Err (EscapeError s)
        | _ => Err (EscapeError s)
        end
      else if (nat_of_ascii c <? 128)%nat && shouldEscapeHost c
      then Err (InvalidHostError c)
      else t <- unescapeHost s1 ;; Ok (String c t)
  end.

(** [validOptionalPort]: empty, or a colon followed by digits only. *)
Definition validOptionalPort (port : string) : bool :=
  match port with
  | EmptyString => true
  | String c digits => Ascii.eqb c ":" && allb isDigit digits
  end.

Definition invalidPort (colonPort : string) : string :=
  "invalid port " ++ Quote colonPort ++ " after host".

(** [parseHost]; the zone of a bracketed IPv6 literal is not treated
    apart from the rest of the literal. *)
Definition parseHost (host : string) : res string :=
  if HasPrefix host "[" then
    match CutLastByte host "]" with
    | None => Err "missing ']' in host"
    | Some (_, colonPort) =>
        if validOptionalPort colonPort then unescapeHost host
        else Err (invalidPort colonPort)
    end
  else
    match CutLastByte host ":" with
    | None => unescapeHost host
    | Some (_, digits) =>
        if allb isDigit digits then unescapeHost host
        else Err (invalidPort (String ":" digits))
    end.

Definition validUserinfo (s : string) : bool :=
  allb (fun c => isAlpha c || isDigit c || byteIn c "-._:~!$&'()*+,;=%@") s.

(** [parseAuthority]: user info before the last [@], host after it. *)
Definition parseAuthority (authority : string) : res (option string * string) :=
  match CutLastByte authority "@" with
  | None => h <- parseHost authority ;; Ok (None, h)
  | Some (userinfo, host) =>
      h <- parseHost host ;;
      if validUserinfo userinfo then
        _ <- unescape userinfo ;; Ok (Some userinfo, h)
      else Err "net/url: invalid userinfo"
  end.

Definition isCTL (c : ascii) : bool :=
  let n := nat_of_ascii c in (n <? 32)%nat || (n =? 127)%nat.

(** [parse rawURL false], on the text before the fragment. *)
Definition parse (rawURL : string) : res URL :=
  if existsb isCTL rawURL then Err "net/url: invalid control character in URL"
  else if String.eqb rawURL "*" then
    Ok (mkURL EmptyString EmptyString None EmptyString "*" false
          EmptyString EmptyString)
  else
    sr <- getScheme rawURL ;;
    let '(scheme0, rest0) := sr in
    let scheme := ToLower scheme0 in
    let '(rest, rawQuery, forceQuery) :=
      let '(before, after, found) := CutByte rest0 "?" in
      if found && String.eqb after EmptyString && (CountByte rest0 "?" =? 1)%nat
      then (before, EmptyString, true)
      else (before, after, false) in
    if negb (HasPrefix rest "/") && negb (String.eqb scheme EmptyString) then
      Ok (mkURL scheme rest None EmptyString EmptyString forceQuery rawQuery
            EmptyString)
    else if negb (HasPrefix rest "/")
            && existsb (Ascii.eqb ":") (fst (fst (CutByte rest "/")))
    then Err "first path segment in URL cannot contain colon"
    else
      uhp <-
        (if (negb (String.eqb scheme EmptyString) || negb (HasPrefix rest "///"))
            && HasPrefix rest "//"
         then
           let after := String.substring 2 (String.length rest - 2) rest in
           let '(authority, tail, found) := CutByte after "/" in
           uh <- parseAuthority authority ;;
           Ok (uh, if found then String "/" tail else EmptyString)
         else Ok (None, EmptyString, rest)) ;;
      let '(user, host, pathText) := uhp in
      path <- unescape pathText ;;
      Ok (mkURL scheme EmptyString user host path forceQuery rawQuery EmptyString).

(** [url.Parse]; a failure carries the text of the [*url.Error]. *)
Definition Parse (rawURL : string) : res URL :=
  let '(u, frag, _) := CutByte rawURL "#" in
  match
    (url <- parse u ;;
     if String.eqb frag EmptyString then Ok url
     else
       f <- unescape frag ;;
       Ok (mkURL (Scheme url) (Opaque url) (User url) (Host url)
             (Path url) (ForceQuery url) (RawQuery url) f))
  with
  | Ok url => Ok url
  | Err reason => Err ("parse " ++ Quote rawURL ++ ": " ++ reason)
  end.

End NetURL.

(** ** [options.go]: sentinel errors and configuration *)

(** The five package-level [errors.New] values; each is one allocation,
    so two of them are equal only when they are the same variable. *)
Inductive sentinel : Set :=
| ErrConnectionFailed
| ErrSSHAuthFailed
| ErrVMNotReady
| ErrTimeout
| ErrSFTPFailed.

Definition sentinel_eqb (a b : sentinel) : bool :=
  match a, b with
  | ErrConnectionFailed, ErrConnectionFailed
  | ErrSSHAuthFailed, ErrSSHAuthFailed
  | ErrVMNotReady, ErrVMNotReady
  | ErrTimeout, ErrTimeout
  | ErrSFTPFailed, ErrSFTPFailed => true
  | _, _ => false
  end.

Definition sentinel_text (s : sentinel) : string :=
  match s with
  | ErrConnectionFailed => "failed to connect to Orchard controller"
  | ErrSSHAuthFailed => "SSH authentication failed"
  | ErrVMNotReady => "VM is not ready"
  | ErrTimeout => "operation timed out"
  | ErrSFTPFailed => "SFTP operation failed"
  end.

(** The error values the package builds.  [ErrLib] is an error made by a
    library (websocket, ssh, sftp, net/url), known by its text; [Wrap] is
    [Wrap]/[Wrapf] of [github.com/pkg/errors]; [Errorf] is [fmt.Errorf]
    with a format that has no [%w], [ErrorfW] one whose format has a [%w],
    with the operand of that verb. *)
Inductive error : Type :=
| ErrNew (s : sentinel)
| ErrLib (text : string)
| Wrap (cause : error) (msg : string)
| Errorf (text : string)
| ErrorfW (text : string) (wrapped : error).

(** [err.Error()]. *)
Fixpoint Error (e : error) : string :=
  match e with
  | ErrNew s => sentinel_text s
  | ErrLib text => text
  | Wrap cause msg => msg ++ ": " ++ Error cause
  | Errorf text => text
  | ErrorfW text _ => text
  end.

(** [errors.Is err target] for a sentinel [target]: the chain of [Unwrap]
    is followed until a value identical to [target] is met. *)
Fixpoint errors_Is (e : error) (target : sentinel) : bool :=
  match e with
  | ErrNew s => sentinel_eqb s target
  | ErrLib _ => false
  | Wrap cause _ => errors_Is cause target
  | Errorf _ => false
  | ErrorfW _ w => errors_Is w target
  end.

(** [time.Second], in the nanoseconds of [time.Duration]. *)
Definition Second : Z := 1000000000.

Record TunnelConfig := mkTunnelConfig {
  OrchardBaseURL : string;
  BearerToken : string;
  VMName : string;
  SSHPort : Z;
  WaitSeconds : Z;
  SSHUsername : string;
  SSHPassword : string;
  Timeout : Z
}.

Definition SetDefaults (c : TunnelConfig) : TunnelConfig :=
  let c := if (SSHPort c =? 0)%Z
           then mkTunnelConfig (OrchardBaseURL c) (BearerToken c) (VMName c) 22
                  (WaitSeconds c) (SSHUsername c) (SSHPassword c) (Timeout c)
           else c in
  let c := if (WaitSeconds c =? 0)%Z
           then mkTunnelConfig (OrchardBaseURL c) (BearerToken c) (VMName c)
                  (SSHPort c) 30 (SSHUsername c) (SSHPassword c) (Timeout c)
           else c in
  if (Timeout c =? 0)%Z
  then mkTunnelConfig (OrchardBaseURL c) (BearerToken c) (VMName c)
         (SSHPort c) (WaitSeconds c) (SSHUsername c) (SSHPassword c)
         (30 * Second)
  else c.

Record CommandResult := mkCommandResult {
  ExitCode : Z;
  Stdout : string;
  Stderr : string
}.

Record FileUploadOptions := mkFileUploadOptions {
  RemotePath : string;
  Permissions : Z;
  CreateDirs : bool
}.

(** ** [tunnel.go]: the URL of the port-forward endpoint *)

Section BuildURL.
(** The parser of the base address: [url.Parse] in the program. *)
Variable url_Parse : string -> NetURL.res NetURL.URL.

Definition buildWebSocketURLWith (config : TunnelConfig)
  : string * option error :=
  match url_Parse (OrchardBaseURL config) with
  | NetURL.Err reason =>
      (EmptyString,
       Some (ErrorfW ("invalid Orchard base URL "
                      ++ GoStr.Quote (OrchardBaseURL config) ++ ": " ++ reason)
               (ErrLib reason)))
  | NetURL.Ok baseURL =>
      let scheme :=
        if String.eqb (NetURL.Scheme baseURL) "https" then "wss" else "ws" in
      let wsURL :=
        scheme ++ "://" ++ NetURL.Host baseURL ++ NetURL.Path baseURL
        ++ "/vms/" ++ NetURL.PathEscape (VMName config)
        ++ "/port-forward?port=" ++ GoStr.Itoa (SSHPort config) in
      let wsURL :=
        if (0 <? WaitSeconds config)%Z
        then wsURL ++ "&wait=" ++ GoStr.Itoa (WaitSeconds config)
        else wsURL in
      (wsURL, None)
  end.
End BuildURL.

Definition buildWebSocketURL (config : TunnelConfig) : string * option error :=
  buildWebSocketURLWith NetURL.Parse config.

(** The configurations of [TestBuildWebSocketURL]. *)
Definition urlConfig (base name : string) (port wait : Z) : TunnelConfig :=
  mkTunnelConfig base EmptyString name port wait EmptyString EmptyString 0.


(** ** The outside world: calls into the websocket, ssh and sftp libraries

    The package is glue around three libraries.  A function of the package
    is modelled as a program ([Prog]) that issues calls to them and
    continues with whatever each call answers; [run] executes a program
    against a world that chooses the answers, and records every call with
    its answer in the order in which they happen.  A library error is known
    by its text. *)

(** What [websocket.Dial] answers: a connection, or an error together with
    the status code of the HTTP response when there was one. *)
Inductive DialResult : Set :=
| DialOk
| DialFail (resp : option Z) (err : string).

(** What [session.Run] returned: [nil], an [*ssh.ExitError] with its exit
    status, or any other error. *)
Inductive RunErr : Set :=
| RunNil
| RunExitError (status : Z)
| RunOther (err : string).

(** The bytes the remote process wrote to the two attached buffers, and
    the value [session.Run] returned. *)
Record RunOutput : Set := mkRunOutput {
  run_stdout : string;
  run_stderr : string;
  run_err : RunErr
}.

Inductive Call : Type -> Type :=
| websocket_Dial (url : string) (headers : list (string * string))
    : Call DialResult
| ws_SetReadLimit (n : Z) : Call unit
| ctx_cancel : Call unit
| ws_Close (code : Z) (reason : string) : Call (option string)
| ssh_NewClientConn (addr user password : string) (timeout : Z)
    : Call (option string)
| sshClient_NewSession : Call (option string)
| session_Run (cmd : string) (stdin : option string) : Call RunOutput
| session_Close : Call (option string)
| sshClient_Close : Call (option string)
| sftp_NewClient : Call (option string)
| sftp_MkdirAll (dir : string) : Call (option string)
| sftp_Create (path : string) : Call (option string)
| io_Copy (content : string) : Call (option string)
| file_Close : Call (option string)
| sftp_Chmod (path : string) (mode : Z) : Call (option string)
| sftp_Close : Call (option string).

Inductive Prog (A : Type) : Type :=
| Ret (a : A)
| Do {X : Type} (c : Call X) (k : X -> Prog A).
Arguments Ret {A} a.
Arguments Do {A X} c k.

Fixpoint pbind {A B : Type} (p : Prog A) (f : A -> Prog B) : Prog B :=
  match p with
  | Ret a => f a
  | Do c k => Do c (fun x => pbind (k x) f)
  end.

Definition call {X : Type} (c : Call X) : Prog X := Do c Ret.

Notation "x <- p ;; q" := (pbind p (fun x => q))
  (at level 100, p at next level, right associativity, only parsing).

(** A call together with the answer it got. *)
Inductive Event : Type :=
| Ev {X : Type} (c : Call X) (answer : X).

(** A world answers each call from its current state. *)
Definition World (S : Type) : Type := forall X : Type, Call X -> S -> X * S.

(** The result of running a program: its value, the world afterwards, and
    the calls made, oldest first. *)
Fixpoint run {S A : Type} (w : World S) (p : Prog A) (s : S)
  : A * S * list Event :=
  match p with
  | Ret a => (a, s, [])
  | Do c k =>
      let '(x, s1) := w _ c s in
      let '(a, s2, t) := run w (k x) s1 in
      (a, s2, Ev c x :: t)
  end.

Definition result {S A : Type} (w : World S) (p : Prog A) (s : S) : A :=
  fst (fst (run w p s)).

Definition trace {S A : Type} (w : World S) (p : Prog A) (s : S) : list Event :=
  snd (run w p s).

(** ** [tunnel.go]: dialing *)

(** A non-nil pointer to a connection or a client; nil is [None]. *)
Inductive handle : Set := Handle.

Definition StatusNotFound : Z := 404.
Definition StatusServiceUnavailable : Z := 503.
Definition StatusBadRequest : Z := 400.

Definition dialHeaders (config : TunnelConfig) : list (string * string) :=
  ("User-Agent", "provider-orchard/1.0")
  :: (if String.eqb (BearerToken config) EmptyString then []
      else [("Authorization", "Bearer " ++ BearerToken config)]).

(** The error [dialWebSocket] returns when [websocket.Dial] failed. *)
Definition dialError (config : TunnelConfig) (resp : option Z) (err : string)
  : error :=
  match resp with
  | Some status =>
      if (status =? StatusNotFound)%Z then
        Wrap (ErrNew ErrVMNotReady)
          ("VM " ++ GoStr.Quote (VMName config) ++ " not found (HTTP "
           ++ GoStr.Itoa status ++ ")")
      else if (status =? StatusServiceUnavailable)%Z then
        Wrap (ErrNew ErrConnectionFailed)
          ("failed to connect to VM " ++ GoStr.Quote (VMName config)
           ++ " worker (HTTP " ++ GoStr.Itoa status ++ ")")
      else if (status =? StatusBadRequest)%Z then
        Wrap (ErrNew ErrConnectionFailed)
          ("invalid port specified (HTTP " ++ GoStr.Itoa status ++ ")")
      else
        Wrap (ErrNew ErrConnectionFailed)
          ("WebSocket dial failed with status " ++ GoStr.Itoa status
           ++ ": " ++ err)
  | None => Wrap (ErrNew ErrConnectionFailed) err
  end.

Definition dialWebSocket (config : TunnelConfig)
  : Prog (option handle * option error) :=
  match buildWebSocketURL config with
  | (_, Some err) => Ret (None, Some (Wrap err "failed to build WebSocket URL"))
  | (wsURL, None) =>
      r <- call (websocket_Dial wsURL (dialHeaders config)) ;;
      match r with
      | DialFail resp err => Ret (None, Some (dialError config resp err))
      | DialOk =>
          _ <- call (ws_SetReadLimit (-1)) ;;
          Ret (Some Handle, None)
      end
  end.

(** [wsNetConn.Close]: cancel the connection's context, then close the
    WebSocket with [StatusNormalClosure]. *)
Definition StatusNormalClosure : Z := 1000.

Definition wsNetConn_Close : Prog (option string) :=
  _ <- call ctx_cancel ;;
  call (ws_Close StatusNormalClosure "closing").

(** ** [session.go] *)

(** The struct [vmSession]; a pointer field is [None] when nil. *)
Record vmSession := mkVMSession {
  config : TunnelConfig;
  wsConn : option handle;
  sshClient : option handle;
  sftpClient : option handle
}.

(** The marker of an authentication failure in the text of the error of
    [ssh.NewClientConn]. *)
Definition authMarker : string := "unable to authenticate".

(** The error [NewVMSession] returns when the handshake failed with an
    error of text [err]. *)
Definition handshakeError (err : string) : error :=
  if GoStr.Contains err authMarker
  then Wrap (ErrNew ErrSSHAuthFailed) err
  else Wrap (ErrLib err) "failed to establish SSH connection".

(** [NewVMSession].  The handshake runs over the dialed stream with the
    address ["vm"], password authentication and the configured timeout. *)
Definition NewVMSession (config : TunnelConfig)
  : Prog (option vmSession * option error) :=
  let config := SetDefaults config in
  d <- dialWebSocket config ;;
  match d with
  | (_, Some err) => Ret (None, Some err)
  | (wsConn, None) =>
      r <- call (ssh_NewClientConn "vm" (SSHUsername config)
                   (SSHPassword config) (Timeout config)) ;;
      match r with
      | Some err =>
          _ <- wsNetConn_Close ;;
          Ret (None, Some (handshakeError err))
      | None => Ret (Some (mkVMSession config wsConn (Some Handle) None), None)
      end
  end.

(** The tail shared by [ExecuteCommand] and [ExecuteScript]: build the
    result from the two buffers and the value of [session.Run]; [what] is
    the message used to wrap an error that is not an exit status. *)
Definition commandResult (out : RunOutput) (what : string)
  : option CommandResult * option error :=
  let result := mkCommandResult 0 (run_stdout out) (run_stderr out) in
  match run_err out with
  | RunExitError status =>
      (Some (mkCommandResult status (Stdout result) (Stderr result)), None)
  | RunOther err => (Some result, Some (Wrap (ErrLib err) what))
  | RunNil => (Some (mkCommandResult 0 (Stdout result) (Stderr result)), None)
  end.

(** [ExecuteCommand]; the deferred [session.Close] runs after [Run]. *)
Definition ExecuteCommand (s : vmSession) (command : string)
  : Prog (option CommandResult * option error) :=
  r <- call sshClient_NewSession ;;
  match r with
  | Some err => Ret (None, Some (Wrap (ErrLib err) "failed to create SSH session"))
  | None =>
      out <- call (session_Run command None) ;;
      _ <- call session_Close ;;
      Ret (commandResult out "command execution failed")
  end.

(** The replacement [ExecuteScript] and [UploadAndRunScript] apply to a
    value: every single quote becomes quote, double quote, quote, double
    quote, quote. *)
Definition quoteEscape : string :=
  String "'" (String (ascii_of_nat 34)
    (String "'" (String (ascii_of_nat 34) (String "'" EmptyString)))).

Definition escapeValue (value : string) : string :=
  GoStr.ReplaceAll value "'" quoteEscape.

(** The replacement the specification words: close the quote, a quote
    escaped by a backslash, reopen the quote. *)
Definition specQuoteEscape : string := "'\''".

Definition newline : string := String (ascii_of_nat 10) EmptyString.

Definition exportLine (kv : string * string) : string :=
  "export " ++ fst kv ++ "='" ++ escapeValue (snd kv) ++ "'" ++ newline.

(** The text [ExecuteScript] writes into its [strings.Builder].  [env]
    lists the entries of the map in the order in which the [range] loop
    visits them. *)
Definition scriptText (script : string) (env : list (string * string)) : string :=
  ("#!/bin/bash" ++ newline ++ "set -e" ++ newline)
  ++ fold_right (fun kv rest => exportLine kv ++ rest) script env.

(** [ExecuteScript]: the synthesized text is the standard input of
    [/bin/bash]. *)
Definition ExecuteScript (s : vmSession) (script : string)
  (env : list (string * string))
  : Prog (option CommandResult * option error) :=
  r <- call sshClient_NewSession ;;
  match r with
  | Some err => Ret (None, Some (Wrap (ErrLib err) "failed to create SSH session"))
  | None =>
      out <- call (session_Run "/bin/bash" (Some (scriptText script env))) ;;
      _ <- call session_Close ;;
      Ret (commandResult out "script execution failed")
  end.

(** [ensureSFTP]: the session afterwards and the error. *)
Definition ensureSFTP (s : vmSession) : Prog (vmSession * option error) :=
  match sftpClient s with
  | Some _ => Ret (s, None)
  | None =>
      r <- call sftp_NewClient ;;
      match r with
      | Some err => Ret (s, Some (Wrap (ErrNew ErrSFTPFailed) err))
      | None =>
          Ret (mkVMSession (config s) (wsConn s) (sshClient s) (Some Handle), None)
      end
  end.

(** [filepath.Dir] on a cleaned path: the text before the last slash, the
    root for a file directly under it, and a dot when there is no slash. *)
Definition filepath_Dir (path : string) : string :=
  match GoStr.CutLastByte path "/" with
  | None => "."
  | Some (dir, _) => if String.eqb dir EmptyString then "/" else dir
  end.

(** [UploadFile]; the deferred [f.Close] runs once the file was created. *)
Definition UploadFile (s : vmSession) (content : string) (opts : FileUploadOptions)
  : Prog (vmSession * option error) :=
  e <- ensureSFTP s ;;
  match e with
  | (s, Some err) => Ret (s, Some err)
  | (s, None) =>
      m <- (if CreateDirs opts
            then
              r <- call (sftp_MkdirAll (filepath_Dir (RemotePath opts))) ;;
              match r with
              | Some err =>
                  Ret (Some (Wrap (ErrNew ErrSFTPFailed)
                               ("failed to create directory "
                                ++ filepath_Dir (RemotePath opts) ++ ": " ++ err)))
              | None => Ret None
              end
            else Ret None) ;;
      match m with
      | Some err => Ret (s, Some err)
      | None =>
          f <- call (sftp_Create (RemotePath opts)) ;;
          match f with
          | Some err =>
              Ret (s, Some (Wrap (ErrNew ErrSFTPFailed)
                              ("failed to create file " ++ RemotePath opts
                               ++ ": " ++ err)))
          | None =>
              c <- call (io_Copy content) ;;
              match c with
              | Some _ =>
                  _ <- call file_Close ;;
                  Ret (s, Some (Wrap (ErrNew ErrSFTPFailed)
                                  "failed to write file content"))
              | None =>
                  if (Permissions opts =? 0)%Z then
                    _ <- call file_Close ;; Ret (s, None)
                  else
                    p <- call (sftp_Chmod (RemotePath opts) (Permissions opts)) ;;
                    _ <- call file_Close ;;
                    match p with
                    | Some _ =>
                        Ret (s, Some (Wrap (ErrNew ErrSFTPFailed)
                                        "failed to set file permissions"))
                    | None => Ret (s, None)
                    end
              end
          end
      end
  end.

Definition UploadBytes (s : vmSession) (data : string) (opts : FileUploadOptions)
  : Prog (vmSession * option error) :=
  UploadFile s data opts.

(** Append a failed close to [errs]. *)
Definition appendErr (errs : list error) (r : option string) : list error :=
  match r with
  | Some err => (errs ++ [ErrLib err])%list
  | None => errs
  end.

(** The verb [%v] on a slice of errors: the texts between brackets,
    separated by one space. *)
Fixpoint joinErrors (errs : list error) : string :=
  match errs with
  | [] => EmptyString
  | [e] => Error e
  | e :: rest => Error e ++ " " ++ joinErrors rest
  end.

Definition closeError (errs : list error) : option error :=
  match errs with
  | [] => None
  | _ :: _ => Some (Errorf ("errors during close: [" ++ joinErrors errs ++ "]"))
  end.

(** [vmSession.Close]. *)
Definition Close (s : vmSession) : Prog (option error) :=
  let errs : list error := [] in
  errs <- match sftpClient s with
          | Some _ => r <- call sftp_Close ;; Ret (appendErr errs r)
          | None => Ret errs
          end ;;
  errs <- match sshClient s with
          | Some _ => r <- call sshClient_Close ;; Ret (appendErr errs r)
          | None => Ret errs
          end ;;
  errs <- match wsConn s with
          | Some _ => r <- wsNetConn_Close ;; Ret (appendErr errs r)
          | None => Ret errs
          end ;;
  Ret (closeError errs).

(** [RunCloudInit]; the value of the deferred [session.Close] is dropped.
    [NewVMSession] returns a session or an error, never neither, so the
    last branch of the match is not reached. *)
Definition RunCloudInit (config : TunnelConfig) (script : string)
  (env : list (string * string))
  : Prog (option CommandResult * option error) :=
  n <- NewVMSession config ;;
  match n with
  | (Some session, None) =>
      r <- ExecuteScript session script env ;;
      _ <- Close session ;;
      Ret r
  | (_, Some err) => Ret (None, Some err)
  | (None, None) => Ret (None, None)
  end.

Definition scriptPath : string := "/tmp/cloudinit-script.sh".

Definition exportPrefix (kv : string * string) : string :=
  "export " ++ fst kv ++ "='" ++ escapeValue (snd kv) ++ "'; ".

(** The command line [UploadAndRunScript] builds. *)
Definition commandLine (env : list (string * string)) : string :=
  fold_right (fun kv rest => exportPrefix kv ++ rest) scriptPath env.

(** [UploadAndRunScript]; the upload goes through the session, so the
    deferred [Close] sees the file-transfer client the upload created. *)
Definition UploadAndRunScript (config : TunnelConfig) (script : string)
  (env : list (string * string))
  : Prog (option CommandResult * option error) :=
  n <- NewVMSession config ;;
  match n with
  | (Some session, None) =>
      u <- UploadBytes session script (mkFileUploadOptions scriptPath 493 true) ;;
      match u with
      | (session, Some err) =>
          _ <- Close session ;;
          Ret (None, Some (Wrap err "failed to upload script"))
      | (session, None) =>
          r <- ExecuteCommand session (commandLine env) ;;
          _ <- Close session ;;
          Ret r
      end
  | (_, Some err) => Ret (None, Some err)
  | (None, None) => Ret (None, None)
  end.

(** ** The stream adapter [wsNetConn]

    The adapter turns the messages of a WebSocket into a byte stream.  The
    WebSocket and the reader it hands out for each message belong to the
    websocket library; the model keeps what the adapter can observe of
    them. *)

Module Stream.
Local Open Scope list_scope.
Local Open Scope nat_scope.

Abbreviation byte := Init.Byte.byte.

(** An error of a [Read] or [Write]: [io.EOF] or any other error. *)
Inductive ioerr : Set :=
| EOF
| IOErr (text : string).

(** An inbound message on the wire: its payload and, for a message the
    transport breaks off, the error met once the payload received so far
    has been handed over. *)
Record message : Set := mkMessage {
  payload : list byte;
  fault : option string
}.

(** The [io.Reader] of one message: the bytes not yet handed over. *)
Record msgReader : Set := mkMsgReader {
  rest : list byte;
  rfault : option string
}.

(** The struct [wsNetConn] with the WebSocket it wraps: [reader] is the
    field of that name (nil is [None]); [inbound] are the messages that
    arrived and were not yet fetched by [ws.Reader]; [outbound] are the
    messages sent, oldest first; [down] is the error every call on the
    WebSocket returns once the connection or its context is finished. *)
Record wsNetConn : Set := mkWsNetConn {
  reader : option msgReader;
  inbound : list message;
  outbound : list (list byte);
  down : option string
}.

Section Adapter.
(** The behaviour an [io.Reader] is free to choose: how many bytes one
    [Read] hands over, given the unread bytes and the length of the
    caller's buffer, and whether the [Read] that hands over the last bytes
    of a message already reports [io.EOF] with them. *)
Variable chunk : list byte -> nat -> nat.
Variable eofWithData : list byte -> nat -> bool.

(** [reader.Read(b)] with [len(b) = len]: the bytes stored in [b], the
    reader afterwards and the error.  A reader never hands over more than
    the buffer holds or the message has left. *)
Definition reader_Read (r : msgReader) (len : nat)
  : list byte * msgReader * option ioerr :=
  match rest r with
  | [] =>
      match rfault r with
      | Some e => ([], r, Some (IOErr e))
      | None => ([], r, Some EOF)
      end
  | _ :: _ =>
      let n := Nat.min (chunk (rest r) len) (Nat.min len (length (rest r))) in
      let r' := mkMsgReader (drop n (rest r)) (rfault r) in
      let finished :=
        match rest r', rfault r with
        | [], None => eofWithData (rest r) len
        | _, _ => false
        end in
      (take n (rest r), r', if finished then Some EOF else None)
  end.

(** [c.ws.Reader(c.ctx)]: the reader of the next message.  With no message
    left the call blocks until the context is cancelled and then returns
    its error. *)
Definition ws_Reader (c : wsNetConn) : (msgReader * wsNetConn) + ioerr :=
  match down c with
  | Some e => inr (IOErr e)
  | None =>
      match inbound c with
      | [] => inr (IOErr "context canceled")
      | m :: ms =>
          inl (mkMsgReader (payload m) (fault m),
               mkWsNetConn (reader c) ms (outbound c) (down c))
      end
  end.

Definition set_reader (c : wsNetConn) (r : option msgReader) : wsNetConn :=
  mkWsNetConn r (inbound c) (outbound c) (down c).

(** The last three statements of [Read]: fetch the next message and read
    from it. *)
Definition readNext (c : wsNetConn) (len : nat)
  : wsNetConn * list byte * option ioerr :=
  match ws_Reader c with
  | inr err => (c, [], Some err)
  | inl (r, c) =>
      let '(out, r', err) := reader_Read r len in
      (set_reader c (Some r'), out, err)
  end.

(** [wsNetConn.Read(b)] with [len(b) = len]: the connection afterwards, the
    bytes stored in [b] (their number is the [n] returned), the error. *)
Definition Read (c : wsNetConn) (len : nat)
  : wsNetConn * list byte * option ioerr :=
  match reader c with
  | Some r =>
      let '(out, r', err) := reader_Read r len in
      match err with
      | Some EOF =>
          let c := set_reader c None in
          if 0 <? length out then (c, out, None) else readNext c len
      | Some e => (set_reader c (Some r'), out, Some e)
      | None => (set_reader c (Some r'), out, None)
      end
  | None => readNext c len
  end.

(** [wsNetConn.Write(b)]: the connection afterwards, [n] and the error. *)
Definition Write (c : wsNetConn) (b : list byte)
  : wsNetConn * nat * option ioerr :=
  match down c with
  | Some e => (c, 0, Some (IOErr e))
  | None =>
      (mkWsNetConn (reader c) (inbound c) (outbound c ++ [b]) (down c),
       length b, None)
  end.

(** How a caller's loop of [Read] calls ended. *)
Inductive loopStatus : Set :=
| Done
| Failed (err : ioerr)
| OutOfFuel.

(** A caller that needs [want] bytes and reads with a buffer of [len]
    bytes, in the manner of [io.ReadAtLeast]: it calls [Read] until it has
    the bytes or a call returns an error, and is content when the bytes
    are there.  [fuel] bounds the number of calls. *)
Fixpoint readUntil (fuel : nat) (c : wsNetConn) (len want : nat)
  : wsNetConn * list byte * loopStatus :=
  match want with
  | O => (c, [], Done)
  | S _ =>
      match fuel with
      | O => (c, [], OutOfFuel)
      | S fuel' =>
          let '(c1, out, err) := Read c len in
          match err with
          | Some e => (c1, out, if want <=? length out then Done else Failed e)
          | None =>
              let '(c2, more, st) := readUntil fuel' c1 len (want - length out) in
              (c2, out ++ more, st)
          end
      end
  end.

End Adapter.

(** The bytes that arrived and were not yet returned by [Read], in the
    order of arrival. *)
Definition pending (c : wsNetConn) : list byte :=
  match reader c with
  | Some r => rest r
  | None => []
  end ++ concat (map payload (inbound c)).

(** A new adapter over a live WebSocket on which nothing arrived yet. *)
Definition newWSNetConn : wsNetConn := mkWsNetConn None [] [] None.

(** A peer that sends back every message it received, unchanged. *)
Definition echo (c : wsNetConn) : wsNetConn :=
  mkWsNetConn (reader c)
    (inbound c ++ map (fun b => mkMessage b None) (outbound c)) [] (down c).

(** A reader that fills the caller's buffer and reports the end of a
    message on the call after its last bytes. *)
Definition fullChunk (unread : list byte) (len : nat) : nat := len.
Definition lateEOF (unread : list byte) (len : nat) : bool := false.

(** The states of an adapter that receives one message and nothing else:
    the WebSocket is alive, no message is broken off, and either a message
    waits to be fetched or a fetched one is being read, not both. *)
Definition tidy (c : wsNetConn) : Prop :=
  down c = None
  /\ match reader c, inbound c with
     | None, [] => True
     | None, [m] => fault m = None
     | Some r, [] => rfault r = None
     | _, _ => False
     end.

End Stream.

(** ** Reading a trace *)

(** The three resources a session owns. *)
Inductive resource : Set :=
| FileTransferClient
| ShellClient
| DuplexStream.

(** The resource an event closes, with the answer of the close. *)
Definition closeOf (e : Event) : option (resource * option string) :=
  match e with
  | Ev c a =>
      match c in Call X return X -> option (resource * option string) with
      | sftp_Close => fun a => Some (FileTransferClient, a)
      | sshClient_Close => fun a => Some (ShellClient, a)
      | ws_Close _ _ => fun a => Some (DuplexStream, a)
      | _ => fun _ => None
      end a
  end.

(** The closes of a trace, in the order in which they happened. *)
Definition closes (t : list Event) : list (resource * option string) :=
  omap closeOf t.

(** The texts of the closes that failed. *)
Definition closeFailures (t : list Event) : list string :=
  omap snd (closes t).

Definition dialOf (e : Event) : option DialResult :=
  match e with
  | Ev c a =>
      match c in Call X return X -> option DialResult with
      | websocket_Dial _ _ => fun a => Some a
      | _ => fun _ => None
      end a
  end.

Definition handshakeOf (e : Event) : option (option string) :=
  match e with
  | Ev c a =>
      match c in Call X return X -> option (option string) with
      | ssh_NewClientConn _ _ _ _ => fun a => Some a
      | _ => fun _ => None
      end a
  end.

Definition newSessionOf (e : Event) : option (option string) :=
  match e with
  | Ev c a =>
      match c in Call X return X -> option (option string) with
      | sshClient_NewSession => fun a => Some a
      | _ => fun _ => None
      end a
  end.

Definition sftpNewOf (e : Event) : option (option string) :=
  match e with
  | Ev c a =>
      match c in Call X return X -> option (option string) with
      | sftp_NewClient => fun a => Some a
      | _ => fun _ => None
      end a
  end.

(** The command, the standard input and the answer of a [session.Run]. *)
Definition runOf (e : Event) : option (string * option string * RunOutput) :=
  match e with
  | Ev c a =>
      match c in Call X return X -> option (string * option string * RunOutput) with
      | session_Run cmd stdin => fun a => Some (cmd, stdin, a)
      | _ => fun _ => None
      end a
  end.

(** The answers a run got from the dial, the handshake, the opening of an
    execution channel, [session.Run] and the creation of the file-transfer
    client: those of the first such call. *)
Definition sftpNewAnswer (t : list Event) : option (option string) :=
  head (omap sftpNewOf t).
Definition dialAnswer (t : list Event) : option DialResult :=
  head (omap dialOf t).
Definition handshakeAnswer (t : list Event) : option (option string) :=
  head (omap handshakeOf t).
Definition newSessionAnswer (t : list Event) : option (option string) :=
  head (omap newSessionOf t).
Definition runAnswer (t : list Event) : option (string * option string * RunOutput) :=
  head (omap runOf t).

(** ** A world that answers from a fixed script *)

Record Script := mkScript {
  on_dial : DialResult;
  on_handshake : option string;
  on_newSession : option string;
  on_run : RunOutput;
  on_sftp : option string;
  on_closeFileTransfer : option string;
  on_closeShell : option string;
  on_closeStream : option string
}.

(** Every call not named in the script succeeds. *)
Definition scripted (sc : Script) : World unit :=
  fun X c s =>
    (match c in Call X return X with
     | websocket_Dial _ _ => on_dial sc
     | ws_SetReadLimit _ => tt
     | ctx_cancel => tt
     | ws_Close _ _ => on_closeStream sc
     | ssh_NewClientConn _ _ _ _ => on_handshake sc
     | sshClient_NewSession => on_newSession sc
     | session_Run _ _ => on_run sc
     | session_Close => None
     | sshClient_Close => on_closeShell sc
     | sftp_NewClient => on_sftp sc
     | sftp_MkdirAll _ => on_sftp sc
     | sftp_Create _ => on_sftp sc
     | io_Copy _ => on_sftp sc
     | file_Close => None
     | sftp_Chmod _ _ => on_sftp sc
     | sftp_Close => on_closeFileTransfer sc
     end, s).

(** The configuration of the session tests. *)
Definition testConfig : TunnelConfig :=
  mkTunnelConfig "http://localhost:6120/v1" "token" "test-vm" 22 30
    "admin" "admin" 0.

(** A world in which everything succeeds and the remote process prints
    [out] and exits with [status]. *)
Definition exits (status : Z) (out : string) : Script :=
  mkScript DialOk None None
    (mkRunOutput out EmptyString
       (if (status =? 0)%Z then RunNil else RunExitError status))
    None None None None.

(** ** Vocabulary of the statements *)

(** A byte the target identifier must not leave bare in its path segment. *)
Definition separates (c : ascii) : bool :=
  Ascii.eqb c " " || Ascii.eqb c "/".

(** The calls of a successful dial and of the handshake. *)
Definition dialed (c : TunnelConfig) : list Event :=
  [Ev (websocket_Dial (fst (buildWebSocketURL c)) (dialHeaders c)) DialOk;
   Ev (ws_SetReadLimit (-1)) tt].

Definition handshake (c : TunnelConfig) (answer : option string) : Event :=
  Ev (ssh_NewClientConn "vm" (SSHUsername c) (SSHPassword c) (Timeout c)) answer.

(** The close of the stream. *)
Definition streamClosed (answer : option string) : list Event :=
  [Ev ctx_cancel tt; Ev (ws_Close StatusNormalClosure "closing") answer].

(** The calls of an execution whose channel opened. *)
Definition executed (cmd : string) (stdin : option string) (out : RunOutput)
  (closed : option string) : list Event :=
  [Ev sshClient_NewSession None; Ev (session_Run cmd stdin) out;
   Ev session_Close closed].

(** The lines of a text, one after the other. *)
Fixpoint joinLines (ls : list string) : string :=
  match ls with
  | [] => EmptyString
  | l :: ls' => l ++ joinLines ls'
  end.

(** The resources [Close] closes for a session, in its order. *)
Definition owned (session : vmSession) : list resource :=
  (match sftpClient session with Some _ => [FileTransferClient] | None => [] end
   ++ match sshClient session with Some _ => [ShellClient] | None => [] end
   ++ match wsConn session with Some _ => [DuplexStream] | None => [] end)%list.

(** A world in which the handshake is refused for a wrong password. *)
Definition wrongPassword : Script :=
  mkScript DialOk
    (Some "ssh: handshake failed: ssh: unable to authenticate, attempted methods [none password], no supported methods remain")
    None (mkRunOutput EmptyString EmptyString RunNil) None None None None.

(** A world in which closing the shell client and closing the stream both
    fail. *)
Definition closesFail : Script :=
  mkScript DialOk None None (mkRunOutput EmptyString EmptyString RunNil)
    None None (Some "ssh: disconnect") (Some "failed to close WebSocket").

(** A world in which the script runs and exits with status 0, and then
    closing the shell client and closing the stream both fail. *)
Definition worksButClosesFail : Script :=
  mkScript DialOk None None (mkRunOutput "done" EmptyString RunNil)
    None None (Some "ssh: disconnect") (Some "failed to close WebSocket").

(** A world in which the deadline of the context passes while the
    WebSocket is being dialed: the dial fails and there is no response. *)
Definition deadlinePassed : Script :=
  mkScript
    (DialFail None
       "failed to WebSocket dial: failed to send handshake request: context deadline exceeded")
    None None (mkRunOutput EmptyString EmptyString RunNil) None None None None.

(** The five bytes of [hello]. *)
Definition hello : list Stream.byte :=
  [Init.Byte.x68; Init.Byte.x65; Init.Byte.x6c; Init.Byte.x6c; Init.Byte.x6f].

(** * Beyond the tunnel layer: quoting, uploads, resources and the VM
    controller *)

(** ** Reading a quoted word the way the remote shell does

    [ExecuteScript] and [UploadAndRunScript] put each value between single
    quotes for [/bin/bash].  The shell reads such a word part by part:
    between single quotes every byte up to the next single quote is
    literal; between double quotes a byte is literal unless it is the
    closing double quote or one of backslash, dollar and backquote, which
    the model does not read; outside quotes the model reads nothing but
    the opening of a quoted part. *)

Inductive quoting : Set :=
| Unquoted
| SingleQuoted
| DoubleQuoted.

Fixpoint shellWord (q : quoting) (s : string) : option string :=
  match s with
  | EmptyString =>
      match q with
      | Unquoted => Some EmptyString
      | _ => None
      end
  | String c s' =>
      let n := nat_of_ascii c in
      match q with
      | Unquoted =>
          if (n =? 39)%nat then shellWord SingleQuoted s'
          else if (n =? 34)%nat then shellWord DoubleQuoted s'
          else None
      | SingleQuoted =>
          if (n =? 39)%nat then shellWord Unquoted s'
          else option_map (String c) (shellWord SingleQuoted s')
      | DoubleQuoted =>
          if (n =? 34)%nat then shellWord Unquoted s'
          else if (n =? 92)%nat || (n =? 36)%nat || (n =? 96)%nat then None
          else option_map (String c) (shellWord DoubleQuoted s')
      end
  end.

(** The URL and the headers of a dial. *)
Definition dialCallOf (e : Event) : option (string * list (string * string)) :=
  match e with
  | Ev c _ =>
      match c with
      | websocket_Dial url headers => Some (url, headers)
      | _ => None
      end
  end.

(** The world after a run. *)
Definition final {S A : Type} (w : World S) (p : Prog A) (s : S) : S :=
  snd (fst (run w p s)).

(** ** The steps of an upload *)

Inductive uploadStep : Set :=
| StepNewClient
| StepMkdirAll (dir : string)
| StepCreate (path : string)
| StepCopy (content : string)
| StepChmod (path : string) (mode : Z)
| StepCloseFile.

(** The step an event performs on the file-transfer side, with its
    answer. *)
Definition uploadStepOf (e : Event) : option (uploadStep * option string) :=
  match e with
  | Ev c a =>
      match c in Call X return X -> option (uploadStep * option string) with
      | sftp_NewClient => fun a => Some (StepNewClient, a)
      | sftp_MkdirAll dir => fun a => Some (StepMkdirAll dir, a)
      | sftp_Create path => fun a => Some (StepCreate path, a)
      | io_Copy content => fun a => Some (StepCopy content, a)
      | sftp_Chmod path mode => fun a => Some (StepChmod path mode, a)
      | file_Close => fun a => Some (StepCloseFile, a)
      | _ => fun _ => None
      end a
  end.

Definition uploadSteps (t : list Event) : list (uploadStep * option string) :=
  omap uploadStepOf t.

(** The steps of a trace that failed, the close of the file apart. *)
Definition failedSteps (t : list Event) : list uploadStep :=
  omap (fun sa : uploadStep * option string =>
          match sa with
          | (StepCloseFile, _) => None
          | (step, Some _) => Some step
          | (_, None) => None
          end) (uploadSteps t).

(** The steps of an upload in which nothing fails, for a session with or
    without a file-transfer client. *)
Definition fullUpload (hasClient : bool) (content : string)
  (opts : FileUploadOptions) : list uploadStep :=
  ((if hasClient then [] else [StepNewClient])
   ++ (if CreateDirs opts then [StepMkdirAll (filepath_Dir (RemotePath opts))]
       else [])
   ++ [StepCreate (RemotePath opts); StepCopy content]
   ++ (if (Permissions opts =? 0)%Z then []
       else [StepChmod (RemotePath opts) (Permissions opts)])
   ++ [StepCloseFile])%list.

(** ** What a run acquires and what it releases *)

(** The things a run can hold: the stream of a dial that succeeded, the
    shell client of a handshake that succeeded, a file-transfer client, an
    execution channel and a remote file that were opened. *)
Inductive holding : Set :=
| HeldStream
| HeldShell
| HeldTransfer
| HeldChannel
| HeldFile.

(** One more for an acquisition that succeeded, one less for a close that
    was called, whatever the close answered. *)
Definition delta (k : holding) (e : Event) : Z :=
  match e with
  | Ev c a =>
      match c in Call X return X -> Z with
      | websocket_Dial _ _ =>
          fun a => match k, a with HeldStream, DialOk => 1 | _, _ => 0 end
      | ws_Close _ _ => fun _ => match k with HeldStream => -1 | _ => 0 end
      | ssh_NewClientConn _ _ _ _ =>
          fun a => match k, a with HeldShell, None => 1 | _, _ => 0 end
      | sshClient_Close => fun _ => match k with HeldShell => -1 | _ => 0 end
      | sftp_NewClient =>
          fun a => match k, a with HeldTransfer, None => 1 | _, _ => 0 end
      | sftp_Close => fun _ => match k with HeldTransfer => -1 | _ => 0 end
      | sshClient_NewSession =>
          fun a => match k, a with HeldChannel, None => 1 | _, _ => 0 end
      | session_Close => fun _ => match k with HeldChannel => -1 | _ => 0 end
      | sftp_Create _ =>
          fun a => match k, a with HeldFile, None => 1 | _, _ => 0 end
      | file_Close => fun _ => match k with HeldFile => -1 | _ => 0 end
      | _ => fun _ => 0
      end a
  end.

(** What is still held at the end of a trace. *)
Fixpoint held (k : holding) (t : list Event) : Z :=
  match t with
  | [] => 0
  | e :: t' => delta k e + held k t'
  end.

(** ** The VM controller ([internal/controller/vm/vm.go]): provisioning
    over the tunnel *)

Module VM.

Definition errSSHNotReady : string := "SSH not ready".

Definition CloudInitStatusPending : string := "pending".
Definition CloudInitStatusRunning : string := "running".
Definition CloudInitStatusCompleted : string := "completed".
Definition CloudInitStatusFailed : string := "failed".

Definition DefaultSSHUsername : string := "admin".
Definition DefaultSSHPassword : string := "admin".

Definition maxConditionMessageLen : nat := 1024.

(** [truncateMessage]: [len] counts bytes and the slice is a slice of
    bytes. *)
Definition truncateMessage (msg : string) : string :=
  if (String.length msg <=? maxConditionMessageLen)%nat then msg
  else String.substring 0 (maxConditionMessageLen - 3) msg ++ "...".

(** The fields of [v1alpha1.StartupScript] and [v1alpha1.VMParameters] the
    functions below read; a nil pointer is [None], and [Env] lists the
    entries of the map in the order in which a [range] loop visits them. *)
Record StartupScript := mkStartupScript {
  ScriptContent : string;
  Env : list (string * string)
}.

Record VMParameters := mkVMParameters {
  Username : option string;
  Password : option string;
  Startup : option StartupScript
}.

(** [getSSHCredentials]. *)
Definition getSSHCredentials (params : VMParameters) : string * string :=
  let username :=
    match Username params with
    | Some u => if String.eqb u EmptyString then DefaultSSHUsername else u
    | None => DefaultSSHUsername
    end in
  let password :=
    match Password params with
    | Some p => if String.eqb p EmptyString then DefaultSSHPassword else p
    | None => DefaultSSHPassword
    end in
  (username, password).

(** The conditions of [xpv1] the controller sets; all are of the type
    Ready, so setting one replaces the one before. *)
Inductive ConditionReason : Set :=
| Available
| Unavailable
| Creating
| Deleting.

Record Condition := mkCondition {
  Reason : ConditionReason;
  Message : string
}.

(** The fields of the custom resource [v1alpha1.VM] the functions below
    read and write: the external-name annotation, the parameters, the two
    cloud-init fields of the status and the Ready condition. *)
Record VMResource := mkVMResource {
  ExternalName : string;
  ForProvider : VMParameters;
  CloudInitStatus : string;
  CloudInitMessage : string;
  Ready : option Condition
}.

(** The struct [external], without the REST client. *)
Record external := mkExternal {
  baseURL : string;
  token : string
}.

Definition SetConditions (cr : VMResource) (c : Condition) : VMResource :=
  mkVMResource (ExternalName cr) (ForProvider cr) (CloudInitStatus cr)
    (CloudInitMessage cr) (Some c).

Definition getCloudInitStatus (cr : VMResource) : string := CloudInitStatus cr.

Definition setCloudInitStatus (cr : VMResource) (status message : string)
  : VMResource :=
  mkVMResource (ExternalName cr) (ForProvider cr) status message (Ready cr).

(** [buildTunnelConfig]. *)
Definition buildTunnelConfig (c : external) (cr : VMResource) : TunnelConfig :=
  let '(username, password) := getSSHCredentials (ForProvider cr) in
  mkTunnelConfig (baseURL c) (token c) (ExternalName cr) 22 30
    username password (60 * Second).

(** A function returns, or panics on a nil pointer. *)
Inductive outcome (A : Type) : Type :=
| Returned (a : A)
| Panicked.
Arguments Returned {A} a.
Arguments Panicked {A}.

(** [isSSHReady].  The deferred [session.Close] runs after the command;
    a nil session with a nil error, or a nil result with a nil error,
    would be dereferenced. *)
Definition isSSHReady (c : external) (cr : VMResource) : Prog (outcome bool) :=
  let config := buildTunnelConfig c cr in
  n <- NewVMSession config ;;
  match n with
  | (_, Some _) => Ret (Returned false)
  | (Some session, None) =>
      r <- ExecuteCommand session "ls -al" ;;
      _ <- Close session ;;
      match r with
      | (_, Some _) => Ret (Returned false)
      | (Some result, None) => Ret (Returned (ExitCode result =? 0)%Z)
      | (None, None) => Ret Panicked
      end
  | (None, None) => Ret Panicked
  end.

(** [executeCloudInit]: the resource afterwards and the error.
    [errors.New] of a text gives an error with that text and no cause. *)
Definition executeCloudInit (c : external) (cr : VMResource)
  : Prog (outcome (VMResource * option error)) :=
  let cr := setCloudInitStatus cr CloudInitStatusRunning EmptyString in
  ready <- isSSHReady c cr ;;
  match ready with
  | Panicked => Ret Panicked
  | Returned false =>
      Ret (Returned (setCloudInitStatus cr CloudInitStatusPending "waiting for SSH",
                     Some (Errorf errSSHNotReady)))
  | Returned true =>
      let config := buildTunnelConfig c cr in
      match Startup (ForProvider cr) with
      | None => Ret Panicked
      | Some startup =>
          r <- UploadAndRunScript config (ScriptContent startup) (Env startup) ;;
          match r with
          | (_, Some err) =>
              let message := "cloud-init failed: " ++ Error err in
              let cr := setCloudInitStatus cr CloudInitStatusFailed message in
              Ret (Returned (SetConditions cr
                               (mkCondition Unavailable (truncateMessage message)),
                             None))
          | (Some result, None) =>
              if negb (ExitCode result =? 0)%Z then
                let message := "exit code " ++ GoStr.Itoa (ExitCode result)
                               ++ ": " ++ Stderr result in
                let cr := setCloudInitStatus cr CloudInitStatusFailed message in
                Ret (Returned (SetConditions cr
                                 (mkCondition Unavailable (truncateMessage message)),
                               None))
              else
                let cr := setCloudInitStatus cr CloudInitStatusCompleted EmptyString in
                Ret (Returned (SetConditions cr (mkCondition Available EmptyString),
                               None))
          | (None, None) => Ret Panicked
          end
      end
  end.

(** [handleCloudInit]. *)
Definition handleCloudInit (c : external) (cr : VMResource)
  : Prog (outcome (VMResource * option error)) :=
  let noScript :=
    match Startup (ForProvider cr) with
    | None => true
    | Some startup => String.eqb (ScriptContent startup) EmptyString
    end in
  if noScript then
    Ret (Returned (SetConditions cr (mkCondition Available EmptyString), None))
  else
    let status := getCloudInitStatus cr in
    if String.eqb status CloudInitStatusCompleted then
      Ret (Returned (SetConditions cr (mkCondition Available EmptyString), None))
    else if String.eqb status CloudInitStatusFailed then
      Ret (Returned (SetConditions cr
                       (mkCondition Unavailable
                          (truncateMessage (CloudInitMessage cr))),
                     None))
    else if String.eqb status CloudInitStatusRunning then
      Ret (Returned (SetConditions cr (mkCondition Creating EmptyString), None))
    else executeCloudInit c cr.

End VM.

(** The states of an adapter on a live WebSocket whose messages all arrive
    whole and carry at least one byte: any number of them may wait to be
    fetched while one is being read. *)
Definition flowing (c : Stream.wsNetConn) : Prop :=
  Stream.down c = None
  /\ Forall (fun m => Stream.fault m = None /\ Stream.payload m <> [])
       (Stream.inbound c)
  /\ match Stream.reader c with
     | Some r => Stream.rfault r = None
     | None => True
     end.

(** A controller and a resource with a start-up script, for the examples:
    the resource carries the cloud-init status [status]. *)
Definition testExternal : VM.external :=
  VM.mkExternal "http://localhost:6120/v1" "token".

Definition testVM (status : string) : VM.VMResource :=
  VM.mkVMResource "test-vm"
    (VM.mkVMParameters None None
       (Some (VM.mkStartupScript "echo hi" [("NAME", "it's")])))
    status EmptyString None.



(** * Properties *)

(** ** Library functions on the inputs of the tests *)

Example Itoa_22 : GoStr.Itoa 22 = "22".
Proof. reflexivity. Qed.
Example Itoa_0 : GoStr.Itoa 0 = "0".
Proof. reflexivity. Qed.
Example Itoa_neg : GoStr.Itoa (-5) = "-5".
Proof. reflexivity. Qed.
Example ReplaceAll_ex : GoStr.ReplaceAll "a'b''" "'" "XY" = "aXYbXYXY".
Proof. reflexivity. Qed.
Example ReplaceAll_ex2 : GoStr.ReplaceAll "aaab" "aa" "c" = "cab".
Proof. reflexivity. Qed.
Example Quote_plain : GoStr.Quote "test-vm" = String (ascii_of_nat 34) ("test-vm" ++ String (ascii_of_nat 34) EmptyString).
Proof. reflexivity. Qed.
Example Parse_local :
  NetURL.Parse "http://localhost:6120/v1"
  = NetURL.Ok (NetURL.mkURL "http" EmptyString None "localhost:6120" "/v1"
                 false EmptyString EmptyString).
Proof. reflexivity. Qed.
Example Parse_invalid :
  NetURL.Parse "://invalid"
  = NetURL.Err ("parse " ++ GoStr.Quote "://invalid" ++ ": missing protocol scheme").
Proof. reflexivity. Qed.
Example Parse_upper :
  NetURL.bind (NetURL.Parse "HTTPS://h/v1") (fun u => NetURL.Ok (NetURL.Scheme u))
  = NetURL.Ok "https".
Proof. reflexivity. Qed.
Example PathEscape_special :
  NetURL.PathEscape "test vm/special" = "test%20vm%2Fspecial".
Proof. reflexivity. Qed.
Example build_custom_port :
  buildWebSocketURL (urlConfig "http://localhost:6120/v1" "test-vm" 2222 10)
  = ("ws://localhost:6120/v1/vms/test-vm/port-forward?port=2222&wait=10", None).
Proof. reflexivity. Qed.
Example build_no_path :
  buildWebSocketURL (urlConfig "http://localhost:6120" "test-vm" 22 30)
  = ("ws://localhost:6120/vms/test-vm/port-forward?port=22&wait=30", None).
Proof. reflexivity. Qed.
Example build_invalid :
  exists e, snd (buildWebSocketURL (urlConfig "://invalid" "test-vm" 22 0)) = Some e.
Proof. eexists. reflexivity. Qed.

(** ** Defaults *)

Example SetDefaults_empty :
  let c := SetDefaults (mkTunnelConfig EmptyString EmptyString EmptyString 0 0
                          EmptyString EmptyString 0) in
  (SSHPort c, WaitSeconds c, Timeout c) = (22, 30, 30 * Second).
Proof. reflexivity. Qed.

Example SetDefaults_partial :
  let c := SetDefaults (mkTunnelConfig EmptyString EmptyString EmptyString 2222 0
                          EmptyString EmptyString 0) in
  (SSHPort c, WaitSeconds c, Timeout c) = (2222, 30, 30 * Second).
Proof. reflexivity. Qed.

(** After [SetDefaults] no numeric field is zero, a field that was set
    keeps its value, and the other fields are untouched. *)
Lemma SetDefaults_fills (c : TunnelConfig) :
  SSHPort (SetDefaults c) = (if SSHPort c =? 0 then 22 else SSHPort c)%Z
  /\ WaitSeconds (SetDefaults c)
     = (if WaitSeconds c =? 0 then 30 else WaitSeconds c)%Z
  /\ Timeout (SetDefaults c)
     = (if Timeout c =? 0 then 30 * Second else Timeout c)%Z
  /\ OrchardBaseURL (SetDefaults c) = OrchardBaseURL c
  /\ BearerToken (SetDefaults c) = BearerToken c
  /\ VMName (SetDefaults c) = VMName c
  /\ SSHUsername (SetDefaults c) = SSHUsername c
  /\ SSHPassword (SetDefaults c) = SSHPassword c.
Proof.
  unfold SetDefaults. destruct c as [b t n p w u pw to]. cbn [SSHPort].
  destruct (p =? 0)%Z; cbn [WaitSeconds]; destruct (w =? 0)%Z; cbn [Timeout];
    destruct (to =? 0)%Z; repeat split.
Qed.

(** ** The URL of the port-forward endpoint *)

Lemma PathEscape_app (a b : string) :
  NetURL.PathEscape (a ++ b) = NetURL.PathEscape a ++ NetURL.PathEscape b.
Proof.
  induction a as [|c a IH]; simpl; [reflexivity|].
  destruct (NetURL.shouldEscapeSegment c); simpl; now rewrite IH.
Qed.

Lemma kept_byte_safe (c : ascii) :
  NetURL.shouldEscapeSegment c = false -> separates c = false.
Proof.
  destruct c as [[] [] [] [] [] [] [] []]; vm_compute; congruence.
Qed.

Lemma hex_digits_safe (c : ascii) :
  separates (GoStr.upperhex (nat_of_ascii c / 16)) = false
  /\ separates (GoStr.upperhex (nat_of_ascii c mod 16)) = false.
Proof.
  destruct c as [[] [] [] [] [] [] [] []]; vm_compute; split; reflexivity.
Qed.

Lemma PathEscape_safe (name : string) :
  GoStr.allb (fun c => negb (separates c)) (NetURL.PathEscape name) = true.
Proof.
  induction name as [|c s IH]; [reflexivity|].
  cbn [NetURL.PathEscape].
  destruct (NetURL.shouldEscapeSegment c) eqn:E; cbn [GoStr.allb].
  - destruct (hex_digits_safe c) as [Hh Hl]. rewrite Hh, Hl, IH. reflexivity.
  - rewrite (kept_byte_safe c E), IH. reflexivity.
Qed.

(** The URL [buildWebSocketURLWith] returns for a base address that
    parses to [u]. *)
Lemma buildWebSocketURLWith_ok parse (c : TunnelConfig) (u : NetURL.URL) :
  parse (OrchardBaseURL c) = NetURL.Ok u ->
  buildWebSocketURLWith parse c
  = (let url :=
       (if String.eqb (NetURL.Scheme u) "https" then "wss" else "ws")
       ++ "://" ++ NetURL.Host u ++ NetURL.Path u ++ "/vms/"
       ++ NetURL.PathEscape (VMName c) ++ "/port-forward?port="
       ++ GoStr.Itoa (SSHPort c) in
     if (0 <? WaitSeconds c)%Z
     then url ++ "&wait=" ++ GoStr.Itoa (WaitSeconds c) else url,
     None).
Proof.
  intros H. unfold buildWebSocketURLWith. rewrite H. reflexivity.
Qed.

(** C2.  [buildWebSocketURL] maps the two configurations of the test table
    to exactly the expected [ws://] and [wss://] URLs; for every
    configuration whose base address parses and whose wait budget is zero
    the URL ends with the port and no [&wait=] is appended; and the target
    identifier enters the path as [url.PathEscape] of it, in which every
    space is [%20], every slash is [%2F], and no bare space or slash is
    left. *)
Theorem buildWebSocketURL_table :
  buildWebSocketURL (urlConfig "http://localhost:6120/v1" "test-vm" 22 30)
  = ("ws://localhost:6120/v1/vms/test-vm/port-forward?port=22&wait=30", None)
  /\ buildWebSocketURL (urlConfig "https://orchard.example.com/v1" "my-vm" 22 60)
     = ("wss://orchard.example.com/v1/vms/my-vm/port-forward?port=22&wait=60", None)
  /\ (forall (c : TunnelConfig) (u : NetURL.URL),
        NetURL.Parse (OrchardBaseURL c) = NetURL.Ok u ->
        WaitSeconds c = 0 ->
        buildWebSocketURL c
        = ((if String.eqb (NetURL.Scheme u) "https" then "wss" else "ws")
           ++ "://" ++ NetURL.Host u ++ NetURL.Path u ++ "/vms/"
           ++ NetURL.PathEscape (VMName c) ++ "/port-forward?port="
           ++ GoStr.Itoa (SSHPort c), None))
  /\ buildWebSocketURL (urlConfig "http://localhost:6120/v1" "test-vm" 22 0)
     = ("ws://localhost:6120/v1/vms/test-vm/port-forward?port=22", None)
  /\ GoStr.Contains
       (fst (buildWebSocketURL (urlConfig "http://localhost:6120/v1" "test-vm" 22 0)))
       "&wait=" = false
  /\ (forall a b : string,
        NetURL.PathEscape (a ++ " " ++ b)
        = NetURL.PathEscape a ++ "%20" ++ NetURL.PathEscape b)
  /\ (forall a b : string,
        NetURL.PathEscape (a ++ "/" ++ b)
        = NetURL.PathEscape a ++ "%2F" ++ NetURL.PathEscape b)
  /\ (forall name : string,
        GoStr.allb (fun c => negb (separates c)) (NetURL.PathEscape name) = true)
  /\ buildWebSocketURL (urlConfig "http://localhost:6120/v1" "test vm/special" 22 30)
     = ("ws://localhost:6120/v1/vms/test%20vm%2Fspecial/port-forward?port=22&wait=30",
        None).
Proof.
  repeat split; try reflexivity.
  - intros c u Hp Hw. unfold buildWebSocketURL.
    rewrite (buildWebSocketURLWith_ok _ c u Hp), Hw. reflexivity.
  - intros a b. now rewrite !PathEscape_app.
  - intros a b. now rewrite !PathEscape_app.
  - apply PathEscape_safe.
Qed.

Lemma buildWebSocketURL_table_witness :
  buildWebSocketURL (urlConfig "http://orchard.local:6120/v1" "vm 1" 2222 0)
  = ("ws://orchard.local:6120/v1/vms/vm%201/port-forward?port=2222", None).
Proof.
  exact (proj1 (proj2 (proj2 buildWebSocketURL_table))
           (urlConfig "http://orchard.local:6120/v1" "vm 1" 2222 0)
           (NetURL.mkURL "http" EmptyString None "orchard.local:6120" "/v1"
              false EmptyString EmptyString)
           eq_refl eq_refl).
Defined.

(** C10.  Whatever the parser makes of the base address, the URL starts
    with [wss://] exactly when the parsed scheme is [https], and with
    [ws://] for every other scheme; a base address that already says
    [wss], or names a scheme that is not HTTP at all, yields [ws://]. *)
Theorem buildWebSocketURL_scheme :
  (forall parse (c : TunnelConfig) (u : NetURL.URL),
     parse (OrchardBaseURL c) = NetURL.Ok u ->
     exists tail : string,
       buildWebSocketURLWith parse c
       = ((if String.eqb (NetURL.Scheme u) "https" then "wss" else "ws")
          ++ "://" ++ tail, None)
       /\ (GoStr.HasPrefix (fst (buildWebSocketURLWith parse c)) "wss://" = true
           <-> NetURL.Scheme u = "https")
       /\ (NetURL.Scheme u <> "https" ->
           GoStr.HasPrefix (fst (buildWebSocketURLWith parse c)) "ws://" = true))
  /\ buildWebSocketURL (urlConfig "wss://orchard.example.com/v1" "my-vm" 22 60)
     = ("ws://orchard.example.com/v1/vms/my-vm/port-forward?port=22&wait=60", None)
  /\ buildWebSocketURL (urlConfig "ftp://orchard.example.com/v1" "my-vm" 22 60)
     = ("ws://orchard.example.com/v1/vms/my-vm/port-forward?port=22&wait=60", None)
  /\ buildWebSocketURL (urlConfig "HTTPS://orchard.example.com/v1" "my-vm" 22 60)
     = ("wss://orchard.example.com/v1/vms/my-vm/port-forward?port=22&wait=60", None).
Proof.
  split; [|repeat split; reflexivity].
  intros parse c u Hp. rewrite (buildWebSocketURLWith_ok _ c u Hp).
  set (t := NetURL.Host u ++ NetURL.Path u ++ "/vms/"
            ++ NetURL.PathEscape (VMName c) ++ "/port-forward?port="
            ++ GoStr.Itoa (SSHPort c)).
  set (w := "&wait=" ++ GoStr.Itoa (WaitSeconds c)).
  clearbody t w.
  destruct (String.eqb_spec (NetURL.Scheme u) "https") as [E|E];
    destruct (0 <? WaitSeconds c)%Z; simpl;
    eexists; (split; [reflexivity|]); split; try tauto;
    split; congruence.
Qed.

Lemma buildWebSocketURL_scheme_witness :
  exists tail : string,
    buildWebSocketURL (urlConfig "wss://orchard.example.com/v1" "my-vm" 22 60)
    = ("ws://" ++ tail, None).
Proof.
  destruct (proj1 buildWebSocketURL_scheme NetURL.Parse
              (urlConfig "wss://orchard.example.com/v1" "my-vm" 22 60)
              (NetURL.mkURL "wss" EmptyString None "orchard.example.com" "/v1"
                 false EmptyString EmptyString)
              eq_refl) as [tail [H _]].
  exists tail. exact H.
Defined.

(** ** Running programs *)

Lemma run_bind {S A B : Type} (w : World S) (p : Prog A) (f : A -> Prog B) (s : S) :
  run w (pbind p f) s
  = let '(a, s1, t1) := run w p s in
    let '(b, s2, t2) := run w (f a) s1 in
    (b, s2, (t1 ++ t2)%list).
Proof.
  revert s. induction p as [a|X c k IH]; intros s; simpl.
  - destruct (run w (f a) s) as [[b s2] t2]. reflexivity.
  - destruct (w X c s) as [x s1]. rewrite IH.
    destruct (run w (k x) s1) as [[a s2] t1].
    destruct (run w (f a) s2) as [[b s3] t2]. reflexivity.
Qed.

Lemma run_call {S X : Type} (w : World S) (c : Call X) (s : S) :
  run w (call c) s = let '(x, s1) := w X c s in (x, s1, [Ev c x]).
Proof. unfold call. simpl. destruct (w X c s). reflexivity. Qed.

(** Run a program up to its next call. *)
Ltac advance :=
  cbn [run pbind call sftpClient sshClient wsConn CreateDirs Permissions
         RemotePath Z.eqb] in *.

(** Ask the world for its answer to the next call of the goal. *)
Ltac answer w :=
  match goal with
  | |- context [w ?X ?c ?s] =>
      let x := fresh "x" in
      let s' := fresh "s" in
      destruct (w X c s) as [x s'] eqn:?; advance
  end.

(** The same, with a case analysis of the answer. *)
Ltac answer_cases w :=
  match goal with
  | |- context [w ?X ?c ?s] =>
      let x := fresh "x" in
      let s' := fresh "s" in
      destruct (w X c s) as [x s'] eqn:?; destruct x; advance
  end.

(** ** Sentinel errors *)

Lemma sentinel_eqb_eq (a b : sentinel) : sentinel_eqb a b = true <-> a = b.
Proof. destruct a, b; simpl; split; congruence. Qed.

(** ** Dialing *)

(** A failed dial is the only call [dialWebSocket] makes, and its error
    is [dialError]. *)
Lemma dialWebSocket_run_failed {S : Type} (w : World S) (s : S)
  (c : TunnelConfig) (resp : option Z) (err : string) :
  dialAnswer (trace w (dialWebSocket c) s) = Some (DialFail resp err) ->
  result w (dialWebSocket c) s = (None, Some (dialError c resp err))
  /\ closes (trace w (dialWebSocket c) s) = [].
Proof.
  unfold trace, result, dialWebSocket.
  destruct (buildWebSocketURL c) as [url [e0|]]; cbn [run pbind call].
  - discriminate.
  - answer w. destruct x as [|resp' err']; cbn [run pbind call].
    + answer w. discriminate.
    + cbn. intros H. injection H as -> ->. split; reflexivity.
Qed.

(** C4.  When [websocket.Dial] fails, [dialWebSocket] returns no
    connection and an error that wraps [ErrVMNotReady] for status 404 and
    [ErrConnectionFailed] for status 503, status 400, any other status and
    for a failure without a response; [errors.Is] tells the two classes
    apart; the error for 404 names the quoted target and the status. *)
Theorem dialWebSocket_classifies {S : Type} (w : World S) (s : S)
  (c : TunnelConfig) (resp : option Z) (err : string) :
  dialAnswer (trace w (dialWebSocket c) s) = Some (DialFail resp err) ->
  exists e : error,
    result w (dialWebSocket c) s = (None, Some e)
    /\ (resp = Some 404 ->
        errors_Is e ErrVMNotReady = true
        /\ errors_Is e ErrConnectionFailed = false
        /\ Error e = ("VM " ++ GoStr.Quote (VMName c) ++ " not found (HTTP 404)")
                     ++ ": VM is not ready")
    /\ (resp <> Some 404 ->
        errors_Is e ErrConnectionFailed = true
        /\ errors_Is e ErrVMNotReady = false)
    /\ (resp = Some 503 ->
        Error e = ("failed to connect to VM " ++ GoStr.Quote (VMName c)
                   ++ " worker (HTTP 503)")
                  ++ ": failed to connect to Orchard controller")
    /\ (resp = Some 400 ->
        Error e = "invalid port specified (HTTP 400)"
                  ++ ": failed to connect to Orchard controller")
    /\ (forall status : Z,
          resp = Some status -> status <> 404 -> status <> 503 -> status <> 400 ->
          Error e = ("WebSocket dial failed with status " ++ GoStr.Itoa status
                     ++ ": " ++ err)
                    ++ ": failed to connect to Orchard controller")
    /\ (resp = None ->
        Error e = err ++ ": failed to connect to Orchard controller").
Proof.
  intros Hd. destruct (dialWebSocket_run_failed w s c resp err Hd) as [Hr _].
  exists (dialError c resp err). split; [exact Hr|]. clear Hr Hd.
  unfold dialError.
  destruct resp as [status|].
  - destruct (Z.eqb_spec status StatusNotFound) as [->|N1];
        [|destruct (Z.eqb_spec status StatusServiceUnavailable) as [->|N2];
          [|destruct (Z.eqb_spec status StatusBadRequest) as [->|N3]]];
        unfold StatusNotFound, StatusServiceUnavailable, StatusBadRequest in *;
        repeat split; intros; try congruence; try reflexivity;
        try (exfalso; congruence).
        match goal with H : Some _ = Some _ |- _ => injection H as <- end.
        reflexivity.
  - repeat split; intros; try congruence; try reflexivity.
Qed.

Lemma dialWebSocket_classifies_witness :
  exists e : error,
    result (scripted (mkScript (DialFail (Some 404) "unexpected status")
                        None None (mkRunOutput EmptyString EmptyString RunNil)
                        None None None None))
      (dialWebSocket testConfig) tt = (None, Some e)
    /\ errors_Is e ErrVMNotReady = true
    /\ errors_Is e ErrConnectionFailed = false.
Proof.
  destruct (dialWebSocket_classifies
              (scripted (mkScript (DialFail (Some 404) "unexpected status")
                           None None (mkRunOutput EmptyString EmptyString RunNil)
                           None None None None))
              tt testConfig (Some 404) "unexpected status" eq_refl)
    as [e [H1 [H2 _]]].
  exists e. split; [exact H1|].
  destruct (H2 eq_refl) as [Ha [Hb _]]. split; assumption.
Defined.

(** ** Opening a session *)

(** Every run of [NewVMSession] is one of four: the URL cannot be built;
    the dial fails; the handshake fails and the stream is closed; or the
    handshake succeeds and the session is returned. *)
Lemma NewVMSession_cases {S : Type} (w : World S) (s : S) (c : TunnelConfig) :
  let cfg := SetDefaults c in
  (exists e0,
      snd (buildWebSocketURL cfg) = Some e0
      /\ run w (NewVMSession c) s
         = ((None, Some (Wrap e0 "failed to build WebSocket URL")), s, []))
  \/ (exists resp err s1,
        run w (NewVMSession c) s
        = ((None, Some (dialError cfg resp err)), s1,
           [Ev (websocket_Dial (fst (buildWebSocketURL cfg)) (dialHeaders cfg))
              (DialFail resp err)]))
  \/ (exists err closed s1,
        run w (NewVMSession c) s
        = ((None, Some (handshakeError err)), s1,
           (dialed cfg ++ handshake cfg (Some err) :: streamClosed closed)%list))
  \/ (exists s1,
        run w (NewVMSession c) s
        = ((Some (mkVMSession cfg (Some Handle) (Some Handle) None), None), s1,
           (dialed cfg ++ [handshake cfg None])%list)).
Proof.
  intros cfg. unfold NewVMSession, dialWebSocket, wsNetConn_Close, dialed,
    handshake, streamClosed. fold cfg.
  destruct (buildWebSocketURL cfg) as [url [e0|]]; cbn [run pbind call fst snd].
  - left. exists e0. split; reflexivity.
  - right. answer w. destruct x as [|resp err]; cbn [run pbind call].
    + right. answer w. destruct x. answer w. destruct x as [err|];
        cbn [run pbind call].
      * left. answer w. destruct x. answer w. exists err, x, s4. reflexivity.
      * right. exists s2. reflexivity.
    + left. exists resp, err, s0. reflexivity.
Qed.

Lemma handshakeError_class (err : string) :
  errors_Is (handshakeError err) ErrSSHAuthFailed = GoStr.Contains err authMarker
  /\ (GoStr.Contains err authMarker = true ->
      handshakeError err = Wrap (ErrNew ErrSSHAuthFailed) err
      /\ Error (handshakeError err) = err ++ ": SSH authentication failed")
  /\ (GoStr.Contains err authMarker = false ->
      handshakeError err = Wrap (ErrLib err) "failed to establish SSH connection"
      /\ Error (handshakeError err)
         = "failed to establish SSH connection: " ++ err).
Proof.
  unfold handshakeError.
  destruct (GoStr.Contains err authMarker); repeat split; congruence.
Qed.

(** C6.  When the handshake of [NewVMSession] fails, the stream the dial
    opened is closed after the handshake and before the function returns
    (the last two calls cancel its context and close the WebSocket), no
    session is returned, and the error wraps [ErrSSHAuthFailed] exactly
    when the text of the handshake error contains the authentication
    marker; otherwise it is the handshake error wrapped with "failed to
    establish SSH connection".  A session is returned only together with a
    nil error, after a successful handshake and with nothing closed. *)
Theorem NewVMSession_handshake_failure {S : Type} (w : World S) (s : S)
  (c : TunnelConfig) :
  (forall err : string,
     handshakeAnswer (trace w (NewVMSession c) s) = Some (Some err) ->
     exists closed : option string,
       trace w (NewVMSession c) s
       = (dialed (SetDefaults c)
          ++ handshake (SetDefaults c) (Some err) :: streamClosed closed)%list
       /\ closes (trace w (NewVMSession c) s) = [(DuplexStream, closed)]
       /\ result w (NewVMSession c) s = (None, Some (handshakeError err))
       /\ errors_Is (handshakeError err) ErrSSHAuthFailed
          = GoStr.Contains err authMarker
       /\ (GoStr.Contains err authMarker = true ->
           handshakeError err = Wrap (ErrNew ErrSSHAuthFailed) err)
       /\ (GoStr.Contains err authMarker = false ->
           handshakeError err
           = Wrap (ErrLib err) "failed to establish SSH connection"
           /\ Error (handshakeError err)
              = "failed to establish SSH connection: " ++ err))
  /\ (forall session : vmSession,
        fst (result w (NewVMSession c) s) = Some session ->
        snd (result w (NewVMSession c) s) = None
        /\ handshakeAnswer (trace w (NewVMSession c) s) = Some None
        /\ closes (trace w (NewVMSession c) s) = []
        /\ wsConn session = Some Handle
        /\ sshClient session = Some Handle)
  /\ (fst (result w (NewVMSession c) s) = None ->
      exists e : error, snd (result w (NewVMSession c) s) = Some e).
Proof.
  unfold trace, result.
  destruct (NewVMSession_cases w s c)
    as [(e0 & _ & H)|[(resp & err0 & s1 & H)|[(err0 & closed & s1 & H)|(s1 & H)]]];
    rewrite H; cbn; (split; [|split]).
  all: try (intros err Hh; discriminate Hh).
  all: try (intros session Hs; discriminate Hs).
  all: try (intros _; eexists; reflexivity).
  - intros err Hh. injection Hh as <-. exists closed.
    destruct (handshakeError_class err0) as (Hc & Ht & Hf).
    split; [reflexivity|]. split; [reflexivity|]. split; [reflexivity|].
    split; [exact Hc|]. split.
    + intros Hm. apply (Ht Hm).
    + intros Hm. apply (Hf Hm).
  - intros session Hs. injection Hs as <-. repeat split; reflexivity.
  - intros Hn. discriminate Hn.
Qed.

Lemma NewVMSession_handshake_failure_witness :
  result (scripted wrongPassword) (NewVMSession testConfig) tt
  = (None, Some (Wrap (ErrNew ErrSSHAuthFailed) (default EmptyString (on_handshake wrongPassword))))
  /\ closes (trace (scripted wrongPassword) (NewVMSession testConfig) tt)
     = [(DuplexStream, None)].
Proof.
  destruct (proj1 (NewVMSession_handshake_failure (scripted wrongPassword) tt
                     testConfig)
              (default EmptyString (on_handshake wrongPassword)) eq_refl)
    as (closed & Ht & Hc & Hr & _ & Ha & _).
  split.
  - rewrite Hr. rewrite (Ha eq_refl). reflexivity.
  - reflexivity.
Defined.

(** ** Executing commands and scripts *)

Lemma ExecuteCommand_cases {S : Type} (w : World S) (s : S)
  (session : vmSession) (command : string) :
  (exists err s1,
      run w (ExecuteCommand session command) s
      = ((None, Some (Wrap (ErrLib err) "failed to create SSH session")), s1,
         [Ev sshClient_NewSession (Some err)]))
  \/ (exists out closed s1,
        run w (ExecuteCommand session command) s
        = (commandResult out "command execution failed", s1,
           executed command None out closed)).
Proof.
  unfold ExecuteCommand, executed. cbn [run pbind call].
  answer w. destruct x as [err|]; cbn [run pbind call].
  - left. exists err, s0. reflexivity.
  - right. answer w. answer w. exists x, x0, s2. reflexivity.
Qed.

Lemma ExecuteScript_cases {S : Type} (w : World S) (s : S)
  (session : vmSession) (script : string) (env : list (string * string)) :
  (exists err s1,
      run w (ExecuteScript session script env) s
      = ((None, Some (Wrap (ErrLib err) "failed to create SSH session")), s1,
         [Ev sshClient_NewSession (Some err)]))
  \/ (exists out closed s1,
        run w (ExecuteScript session script env) s
        = (commandResult out "script execution failed", s1,
           executed "/bin/bash" (Some (scriptText script env)) out closed)).
Proof.
  unfold ExecuteScript, executed. cbn [run pbind call].
  answer w. destruct x as [err|]; cbn [run pbind call].
  - left. exists err, s0. reflexivity.
  - right. answer w. answer w. exists x, x0, s2. reflexivity.
Qed.

(** What [commandResult] returns for each value of [session.Run]. *)
Lemma commandResult_exit (out : RunOutput) (what : string) (status : Z) :
  run_err out = RunExitError status ->
  commandResult out what
  = (Some (mkCommandResult status (run_stdout out) (run_stderr out)), None).
Proof. unfold commandResult. intros ->. reflexivity. Qed.

Lemma commandResult_error (out : RunOutput) (what : string) (e : error) :
  snd (commandResult out what) = Some e ->
  exists err, run_err out = RunOther err /\ e = Wrap (ErrLib err) what.
Proof.
  unfold commandResult. destruct (run_err out) as [|status|err]; simpl;
    intros H; try discriminate.
  injection H as <-. exists err. split; reflexivity.
Qed.

(** C3.  Whenever [session.Run] reports that the remote process exited
    with a status, [ExecuteCommand] and [ExecuteScript] return a nil error
    and a result holding that status and the two captured outputs; and an
    error they return is either the failure to open the execution channel
    or a failure of [session.Run] that is not an exit status. *)
Theorem Execute_exit_status_is_result {S : Type} (w : World S) (s : S)
  (session : vmSession) (command script : string)
  (env : list (string * string)) :
  (forall cmd stdin out status,
     runAnswer (trace w (ExecuteCommand session command) s)
     = Some (cmd, stdin, out) ->
     run_err out = RunExitError status ->
     result w (ExecuteCommand session command) s
     = (Some (mkCommandResult status (run_stdout out) (run_stderr out)), None))
  /\ (forall cmd stdin out status,
        runAnswer (trace w (ExecuteScript session script env) s)
        = Some (cmd, stdin, out) ->
        run_err out = RunExitError status ->
        result w (ExecuteScript session script env) s
        = (Some (mkCommandResult status (run_stdout out) (run_stderr out)), None))
  /\ (forall e : error,
        snd (result w (ExecuteCommand session command) s) = Some e ->
        (exists err,
            newSessionAnswer (trace w (ExecuteCommand session command) s)
            = Some (Some err)
            /\ e = Wrap (ErrLib err) "failed to create SSH session")
        \/ (exists cmd stdin out err,
              runAnswer (trace w (ExecuteCommand session command) s)
              = Some (cmd, stdin, out)
              /\ run_err out = RunOther err
              /\ e = Wrap (ErrLib err) "command execution failed"))
  /\ (forall e : error,
        snd (result w (ExecuteScript session script env) s) = Some e ->
        (exists err,
            newSessionAnswer (trace w (ExecuteScript session script env) s)
            = Some (Some err)
            /\ e = Wrap (ErrLib err) "failed to create SSH session")
        \/ (exists cmd stdin out err,
              runAnswer (trace w (ExecuteScript session script env) s)
              = Some (cmd, stdin, out)
              /\ run_err out = RunOther err
              /\ e = Wrap (ErrLib err) "script execution failed")).
Proof.
  unfold trace, result.
  destruct (ExecuteCommand_cases w s session command)
    as [(err1 & s1 & H1)|(out1 & closed1 & s1 & H1)];
  destruct (ExecuteScript_cases w s session script env)
    as [(err2 & s2 & H2)|(out2 & closed2 & s2 & H2)];
  rewrite H1, H2; cbn [fst snd executed runAnswer newSessionAnswer omap head
                         runOf newSessionOf list_omap];
  repeat split.
  all: try (intros cmd stdin out status Ha; discriminate Ha).
  all: try (intros cmd stdin out status Ha Hs; injection Ha as <- <- <-;
            apply commandResult_exit; exact Hs).
  all: intros e He.
  all: try (injection He as <-; left; eexists; split; reflexivity).
  all: right; destruct (commandResult_error _ _ _ He) as (err & Hr & ->);
    do 4 eexists; (split; [reflexivity|]); split; [exact Hr|reflexivity].
Qed.

Lemma Execute_exit_status_is_result_witness :
  result (scripted (exits 42 ("hello" ++ newline)))
    (ExecuteCommand (mkVMSession testConfig (Some Handle) (Some Handle) None)
       "echo hello; exit 42") tt
  = (Some (mkCommandResult 42 ("hello" ++ newline) EmptyString), None).
Proof.
  exact (proj1 (Execute_exit_status_is_result (scripted (exits 42 ("hello" ++ newline)))
                  tt (mkVMSession testConfig (Some Handle) (Some Handle) None)
                  "echo hello; exit 42" EmptyString [])
           "echo hello; exit 42" None
           (mkRunOutput ("hello" ++ newline) EmptyString (RunExitError 42)) 42
           eq_refl eq_refl).
Defined.

(** ** The text of a script *)

Lemma append_assoc (a b c : string) : (a ++ b) ++ c = a ++ b ++ c.
Proof.
  induction a as [|x a IH]; [reflexivity|].
  change (String x ((a ++ b) ++ c) = String x (a ++ b ++ c)). now rewrite IH.
Qed.

Lemma escapeValue_cons (c : ascii) (v : string) :
  escapeValue (String c v)
  = (if Ascii.eqb "'" c then quoteEscape else String c EmptyString)
    ++ escapeValue v.
Proof.
  unfold escapeValue, GoStr.ReplaceAll. cbn [GoStr.replaceFrom GoStr.HasPrefix].
  destruct (Ascii.eqb "'" c); reflexivity.
Qed.

Lemma escapeValue_app (a b : string) :
  escapeValue (a ++ b) = escapeValue a ++ escapeValue b.
Proof.
  induction a as [|c a IH]; [reflexivity|].
  change (String c a ++ b) with (String c (a ++ b)).
  rewrite !escapeValue_cons, IH, append_assoc. reflexivity.
Qed.

Lemma escapeValue_plain (v : string) :
  GoStr.Contains v "'" = false -> escapeValue v = v.
Proof.
  induction v as [|c v IH]; [reflexivity|].
  rewrite escapeValue_cons. cbn [GoStr.Contains GoStr.HasPrefix].
  destruct (Ascii.eqb "'" c); simpl; [discriminate|].
  intros H. now rewrite IH.
Qed.

Lemma scriptText_lines (script : string) (env : list (string * string)) :
  scriptText script env
  = ("#!/bin/bash" ++ newline ++ "set -e" ++ newline)
    ++ joinLines (map exportLine env) ++ script.
Proof.
  unfold scriptText. f_equal.
  induction env as [|kv env IH]; [reflexivity|].
  change (exportLine kv ++ fold_right (fun kv rest => exportLine kv ++ rest) script env
          = (exportLine kv ++ joinLines (map exportLine env)) ++ script).
  rewrite IH, append_assoc. reflexivity.
Qed.

(** C5, as the code has it.  For every script and every environment map,
    visited by [range] in any order, the text [ExecuteScript] feeds to the
    standard input of [/bin/bash] is the shebang line, the [set -e] line,
    one [export NAME='value'] line for each entry of the map, and the
    caller's script unchanged; in a value every single quote is replaced by
    the five bytes quote, double quote, quote, double quote, quote, and
    nothing else is changed. *)
Theorem ExecuteScript_stdin {S : Type} (w : World S) (s : S)
  (session : vmSession) (script : string) (env : gmap string string)
  (order : list (string * string)) :
  order ≡ₚ map_to_list env ->
  (forall cmd stdin out,
     runAnswer (trace w (ExecuteScript session script order) s)
     = Some (cmd, stdin, out) ->
     cmd = "/bin/bash"
     /\ stdin = Some (("#!/bin/bash" ++ newline ++ "set -e" ++ newline)
                      ++ joinLines (map exportLine order) ++ script))
  /\ length order = size env
  /\ NoDup (map fst order)
  /\ (forall k v, (k, v) ∈ order <-> env !! k = Some v)
  /\ (forall k v,
        exportLine (k, v)
        = "export " ++ k ++ "='" ++ escapeValue v ++ "'" ++ newline)
  /\ (forall a b : string,
        escapeValue (a ++ "'" ++ b) = escapeValue a ++ quoteEscape ++ escapeValue b)
  /\ (forall v : string, GoStr.Contains v "'" = false -> escapeValue v = v)
  /\ String.length quoteEscape = 5%nat.
Proof.
  intros Hperm. split; [|split; [|split; [|split]]].
  - unfold trace.
    destruct (ExecuteScript_cases w s session script order)
      as [(err & s1 & H)|(out0 & closed & s1 & H)]; rewrite H; cbn.
    + discriminate.
    + intros cmd stdin out Ha. injection Ha as <- <- <-.
      split; [reflexivity|]. now rewrite scriptText_lines.
  - rewrite Hperm. apply length_map_to_list.
  - change (map fst order) with (order.*1). rewrite Hperm.
    apply NoDup_fst_map_to_list.
  - intros k v. rewrite Hperm. apply elem_of_map_to_list.
  - repeat split.
    + intros a b. rewrite !escapeValue_app. reflexivity.
    + apply escapeValue_plain.
Qed.

Lemma ExecuteScript_stdin_witness :
  [("MY_VAR", "test-value")] ≡ₚ map_to_list ({[ "MY_VAR" := "test-value" ]} : gmap string string)
  /\ forall cmd stdin out,
       runAnswer
         (trace (scripted (exits 0 "test-value"))
            (ExecuteScript (mkVMSession testConfig (Some Handle) (Some Handle) None)
               "echo $MY_VAR" [("MY_VAR", "test-value")]) tt)
       = Some (cmd, stdin, out) ->
       cmd = "/bin/bash"
       /\ stdin = Some (("#!/bin/bash" ++ newline ++ "set -e" ++ newline)
                        ++ joinLines (map exportLine [("MY_VAR", "test-value")])
                        ++ "echo $MY_VAR").
Proof.
  assert (Hp : [("MY_VAR", "test-value")]
               ≡ₚ map_to_list ({[ "MY_VAR" := "test-value" ]} : gmap string string)).
  { rewrite map_to_list_singleton. reflexivity. }
  split; [exact Hp|].
  exact (proj1 (ExecuteScript_stdin (scripted (exits 0 "test-value")) tt
                  (mkVMSession testConfig (Some Handle) (Some Handle) None)
                  "echo $MY_VAR" {[ "MY_VAR" := "test-value" ]}
                  [("MY_VAR", "test-value")] Hp)).
Defined.

(** C5, as the claim words it.  The claim has every single quote replaced
    by four bytes; [ExecuteScript] writes five. *)
Lemma ExecuteScript_escape_is_not_four_bytes :
  escapeValue "'" = quoteEscape
  /\ String.length (escapeValue "'") = 5%nat
  /\ escapeValue "'" <> specQuoteEscape
  /\ String.length specQuoteEscape = 4%nat
  /\ runAnswer
       (trace (scripted (exits 0 EmptyString))
          (ExecuteScript (mkVMSession testConfig (Some Handle) (Some Handle) None)
             "echo $V" [("V", "it's")]) tt)
     = Some ("/bin/bash",
             Some ("#!/bin/bash" ++ newline ++ "set -e" ++ newline
                   ++ "export V='it" ++ quoteEscape ++ "s'" ++ newline
                   ++ "echo $V"),
             mkRunOutput EmptyString EmptyString RunNil).
Proof.
  repeat split; try reflexivity. vm_compute. discriminate.
Qed.

(** ** Closing a session *)

Lemma closeError_nil (errs : list error) : closeError errs = None <-> errs = [].
Proof. destruct errs; simpl; split; congruence. Qed.

(** What [Close] does in any world: it closes what the session owns, in
    order, and returns the failures it collected. *)
Lemma Close_run {S : Type} (w : World S) (s : S) (session : vmSession) :
  map fst (closes (trace w (Close session) s)) = owned session
  /\ result w (Close session) s
     = closeError (map ErrLib (closeFailures (trace w (Close session) s))).
Proof.
  unfold trace, result, Close, owned, wsNetConn_Close.
  destruct session as [cfg [[]|] [[]|] [[]|]]; cbn [run pbind call wsConn sshClient sftpClient];
    repeat answer_cases w; split; reflexivity.
Qed.

(** C7.  [Close] closes the file-transfer client (if the session has one),
    then the shell client, then the stream, whatever the earlier closes
    answered; it returns nil exactly when none of the closes it attempted
    failed, and otherwise one error whose text lists every failure in
    order; a session without a file-transfer client gets no close, and so
    no failure, of one. *)
Theorem Close_closes_all_in_order {S : Type} (w : World S) (s : S)
  (session : vmSession) :
  map fst (closes (trace w (Close session) s))
  = (match sftpClient session with Some _ => [FileTransferClient] | None => [] end
     ++ match sshClient session with Some _ => [ShellClient] | None => [] end
     ++ match wsConn session with Some _ => [DuplexStream] | None => [] end)%list
  /\ (result w (Close session) s = None
      <-> closeFailures (trace w (Close session) s) = [])
  /\ (forall e : error,
        result w (Close session) s = Some e ->
        Error e
        = "errors during close: ["
          ++ joinErrors (map ErrLib (closeFailures (trace w (Close session) s)))
          ++ "]")
  /\ (sftpClient session = None ->
      forall answer : option string,
        (FileTransferClient, answer) ∉ closes (trace w (Close session) s))
  /\ (sftpClient session = None -> sshClient session = Some Handle ->
      wsConn session = Some Handle ->
      map fst (closes (trace w (Close session) s)) = [ShellClient; DuplexStream]).
Proof.
  destruct (Close_run w s session) as [Ho Hr].
  split; [exact Ho|]. split; [|split; [|split]].
  - rewrite Hr, closeError_nil.
    destruct (closeFailures (trace w (Close session) s)); simpl; split; congruence.
  - intros e. rewrite Hr.
    destruct (closeFailures (trace w (Close session) s)) as [|f fs]; simpl;
      intros H; [discriminate|]. injection H as <-. reflexivity.
  - intros Hn answer Hin.
    assert (Hf : FileTransferClient ∈ map fst (closes (trace w (Close session) s))).
    { apply (list_elem_of_fmap_2 fst) in Hin. exact Hin. }
    rewrite Ho in Hf. unfold owned in Hf. rewrite Hn in Hf.
    destruct (sshClient session), (wsConn session); simpl in Hf;
      repeat (apply elem_of_cons in Hf as [Hf|Hf]; [discriminate|]);
      apply elem_of_nil in Hf; exact Hf.
  - intros H1 H2 H3. rewrite Ho. unfold owned. rewrite H1, H2, H3. reflexivity.
Qed.

Lemma Close_closes_all_in_order_witness :
  map fst (closes (trace (scripted closesFail)
                     (Close (mkVMSession testConfig (Some Handle) (Some Handle) None))
                     tt))
  = [ShellClient; DuplexStream]
  /\ forall e : error,
       result (scripted closesFail)
         (Close (mkVMSession testConfig (Some Handle) (Some Handle) None)) tt
       = Some e ->
       Error e = "errors during close: [ssh: disconnect failed to close WebSocket]".
Proof.
  destruct (Close_closes_all_in_order (scripted closesFail) tt
              (mkVMSession testConfig (Some Handle) (Some Handle) None))
    as (_ & _ & He & _ & Ho).
  split; [exact (Ho eq_refl eq_refl eq_refl)|].
  intros e H. rewrite (He e H). reflexivity.
Defined.

(** ** The facade *)

(** Walk through every run of a program of the layer: decide whether the
    URL can be built, then take each answer of the world in turn. *)
Ltac explore w c :=
  unfold trace, result, RunCloudInit, UploadAndRunScript, NewVMSession,
    dialWebSocket, ExecuteScript, ExecuteCommand, UploadBytes, UploadFile,
    ensureSFTP, Close, wsNetConn_Close;
  destruct (buildWebSocketURL (SetDefaults c)) as [url [e0|]];
  advance; repeat answer_cases w.

(** C8, as the code has it.  Once [NewVMSession] returned a session,
    [RunCloudInit] and [UploadAndRunScript] close it on every path, the
    shell client and then the stream (before them the file-transfer client
    exactly when the upload created one), and return what the execution
    returned:
    the error of a channel that did not open, the commandResult of
    [session.Run], or for [UploadAndRunScript] the wrapped error of the
    upload.  The answers of the closes do not enter the result.  Without a
    session nothing is executed and an error is returned. *)
Theorem facade_closes_and_returns_work {S : Type} (w : World S) (s : S)
  (c : TunnelConfig) (script : string) (env : list (string * string)) :
  (handshakeAnswer (trace w (RunCloudInit c script env) s) = Some None ->
   map fst (closes (trace w (RunCloudInit c script env) s))
   = [ShellClient; DuplexStream]
   /\ ((exists err,
          newSessionAnswer (trace w (RunCloudInit c script env) s)
          = Some (Some err)
          /\ result w (RunCloudInit c script env) s
             = (None, Some (Wrap (ErrLib err) "failed to create SSH session")))
       \/ (exists out,
             runAnswer (trace w (RunCloudInit c script env) s)
             = Some ("/bin/bash", Some (scriptText script env), out)
             /\ result w (RunCloudInit c script env) s
                = commandResult out "script execution failed")))
  /\ (handshakeAnswer (trace w (RunCloudInit c script env) s) <> Some None ->
      runAnswer (trace w (RunCloudInit c script env) s) = None
      /\ exists e, result w (RunCloudInit c script env) s = (None, Some e))
  /\ (handshakeAnswer (trace w (UploadAndRunScript c script env) s) = Some None ->
      map fst (closes (trace w (UploadAndRunScript c script env) s))
      = match sftpNewAnswer (trace w (UploadAndRunScript c script env) s) with
        | Some None => [FileTransferClient; ShellClient; DuplexStream]
        | _ => [ShellClient; DuplexStream]
        end
      /\ ((exists e,
             runAnswer (trace w (UploadAndRunScript c script env) s) = None
             /\ errors_Is e ErrSFTPFailed = true
             /\ result w (UploadAndRunScript c script env) s
                = (None, Some (Wrap e "failed to upload script")))
          \/ (exists err,
                newSessionAnswer (trace w (UploadAndRunScript c script env) s)
                = Some (Some err)
                /\ result w (UploadAndRunScript c script env) s
                   = (None, Some (Wrap (ErrLib err) "failed to create SSH session")))
          \/ (exists out,
                runAnswer (trace w (UploadAndRunScript c script env) s)
                = Some (commandLine env, None, out)
                /\ result w (UploadAndRunScript c script env) s
                   = commandResult out "command execution failed")))
  /\ (handshakeAnswer (trace w (UploadAndRunScript c script env) s) <> Some None ->
      runAnswer (trace w (UploadAndRunScript c script env) s) = None
      /\ exists e, result w (UploadAndRunScript c script env) s = (None, Some e)).
Proof.
  split; [|split; [|split]].
  - explore w c; cbn; intros H; try discriminate H;
      (split; [reflexivity|]);
      first [ left; eexists; split; reflexivity
            | right; eexists; split; reflexivity ].
  - explore w c; cbn; intros H; try (exfalso; apply H; reflexivity);
      (split; [reflexivity|]); eexists; reflexivity.
  - explore w c; cbn; intros H; try discriminate H;
      (split; [reflexivity|]);
      first [ left; eexists; (split; [reflexivity|]); (split; [|reflexivity]);
              reflexivity
            | right; left; eexists; split; reflexivity
            | right; right; eexists; split; reflexivity ].
  - explore w c; cbn; intros H; try (exfalso; apply H; reflexivity);
      (split; [reflexivity|]); eexists; reflexivity.
Qed.

Lemma facade_closes_and_returns_work_witness :
  handshakeAnswer
    (trace (scripted worksButClosesFail) (RunCloudInit testConfig "true" []) tt)
  = Some None
  /\ map fst (closes (trace (scripted worksButClosesFail)
                        (RunCloudInit testConfig "true" []) tt))
     = [ShellClient; DuplexStream].
Proof.
  split; [reflexivity|].
  exact (proj1 (proj1 (facade_closes_and_returns_work
                         (scripted worksButClosesFail) tt testConfig "true" [])
                  eq_refl)).
Defined.

(** C8, as the claim words it.  The claim has the close failures of the
    teardown reported to the caller.  Here both closes of the teardown
    fail, and [RunCloudInit] and [UploadAndRunScript] return a nil error. *)
Lemma facade_drops_close_failures :
  closeFailures
    (trace (scripted worksButClosesFail) (RunCloudInit testConfig "true" []) tt)
  = ["ssh: disconnect"; "failed to close WebSocket"]
  /\ result (scripted worksButClosesFail) (RunCloudInit testConfig "true" []) tt
     = (Some (mkCommandResult 0 "done" EmptyString), None)
  /\ closeFailures
       (trace (scripted worksButClosesFail)
          (UploadAndRunScript testConfig "true" []) tt)
     = ["ssh: disconnect"; "failed to close WebSocket"]
  /\ result (scripted worksButClosesFail)
       (UploadAndRunScript testConfig "true" []) tt
     = (Some (mkCommandResult 0 "done" EmptyString), None).
Proof. repeat split; reflexivity. Qed.

(** ** The kinds of error *)

Lemma errors_Is_sentinel (a b : sentinel) :
  errors_Is (ErrNew a) b = true <-> a = b.
Proof. apply sentinel_eqb_eq. Qed.

Lemma buildWebSocketURL_error (c : TunnelConfig) (url : string) (e : error)
  (target : sentinel) :
  buildWebSocketURL c = (url, Some e) -> errors_Is e target = false.
Proof.
  unfold buildWebSocketURL, buildWebSocketURLWith.
  destruct (NetURL.Parse (OrchardBaseURL c)); intros H; [discriminate|].
  injection H as _ <-. reflexivity.
Qed.

Lemma dialError_not_Timeout (c : TunnelConfig) (resp : option Z) (err : string) :
  errors_Is (dialError c resp err) ErrTimeout = false.
Proof.
  unfold dialError. destruct resp as [status|]; [|reflexivity].
  destruct (status =? StatusNotFound)%Z; [reflexivity|].
  destruct (status =? StatusServiceUnavailable)%Z; [reflexivity|].
  destruct (status =? StatusBadRequest)%Z; reflexivity.
Qed.

Lemma handshakeError_not_Timeout (err : string) :
  errors_Is (handshakeError err) ErrTimeout = false.
Proof. unfold handshakeError. destruct (GoStr.Contains err authMarker); reflexivity. Qed.

Lemma commandResult_not_Timeout (out : RunOutput) (what : string) (e : error) :
  snd (commandResult out what) = Some e -> errors_Is e ErrTimeout = false.
Proof.
  intros H. destruct (commandResult_error out what e H) as (err & _ & ->).
  reflexivity.
Qed.

Lemma NewVMSession_not_Timeout {S : Type} (w : World S) (s : S)
  (c : TunnelConfig) (e : error) :
  snd (result w (NewVMSession c) s) = Some e -> errors_Is e ErrTimeout = false.
Proof.
  unfold result.
  destruct (NewVMSession_cases w s c)
    as [(e0 & He & H)|[(resp & err0 & s1 & H)|[(err0 & closed & s1 & H)|(s1 & H)]]];
    rewrite H; cbn [fst snd]; intros Hs; try discriminate Hs;
    injection Hs as <-.
  - destruct (buildWebSocketURL (SetDefaults c)) as [url oe] eqn:Hb.
    simpl in He. subst oe. simpl. exact (buildWebSocketURL_error _ _ _ _ Hb).
  - apply dialError_not_Timeout.
  - apply handshakeError_not_Timeout.
Qed.

(** Close a goal that says an error just returned is not of the Timeout
    kind. *)
Ltac not_Timeout :=
  unfold commandResult; cbn [fst snd run_err run_stdout run_stderr];
  repeat match goal with
    | |- context [match ?r with RunNil => _ | RunExitError _ => _ | RunOther _ => _ end] =>
        destruct r
    end;
  cbn [fst snd];
  let e := fresh "e" in
  let He := fresh "He" in
  intros e He; try discriminate He; injection He as <-;
  first [ reflexivity
        | apply dialError_not_Timeout
        | apply handshakeError_not_Timeout
        | cbn [errors_Is]; apply dialError_not_Timeout
        | cbn [errors_Is]; apply handshakeError_not_Timeout
        | cbn [errors_Is]; eapply buildWebSocketURL_error; eassumption ].

Ltac explore_from w c :=
  unfold trace, result, RunCloudInit, UploadAndRunScript, NewVMSession,
    dialWebSocket, ExecuteScript, ExecuteCommand, UploadBytes, UploadFile,
    ensureSFTP, Close, wsNetConn_Close;
  destruct (buildWebSocketURL (SetDefaults c)) as [url [e0|]] eqn:Hbuild;
  advance; repeat answer_cases w.

Lemma UploadFile_not_Timeout {S : Type} (w : World S) (s : S)
  (session : vmSession) (content : string) (opts : FileUploadOptions) (e : error) :
  snd (result w (UploadFile session content opts) s) = Some e ->
  errors_Is e ErrTimeout = false.
Proof.
  revert e. unfold result, UploadFile, ensureSFTP.
  destruct session as [cfg ws ssh [[]|]]; destruct opts as [path perm [|]];
    advance; destruct perm; advance; repeat answer_cases w;
    solve [not_Timeout].
Qed.

Lemma Close_not_Timeout {S : Type} (w : World S) (s : S)
  (session : vmSession) (e : error) :
  result w (Close session) s = Some e -> errors_Is e ErrTimeout = false.
Proof.
  destruct (Close_run w s session) as [_ Hr]. rewrite Hr.
  destruct (closeFailures (trace w (Close session) s)); simpl; intros H;
    [discriminate|]. injection H as <-. reflexivity.
Qed.

Lemma facade_not_Timeout {S : Type} (w : World S) (s : S)
  (c : TunnelConfig) (script : string) (env : list (string * string)) :
  (forall e, snd (result w (RunCloudInit c script env) s) = Some e ->
             errors_Is e ErrTimeout = false)
  /\ (forall e, snd (result w (UploadAndRunScript c script env) s) = Some e ->
                errors_Is e ErrTimeout = false).
Proof.
  split; explore_from w c; solve [not_Timeout].
Qed.

Lemma Execute_not_Timeout {S : Type} (w : World S) (s : S)
  (session : vmSession) (command script : string)
  (env : list (string * string)) :
  (forall e, snd (result w (ExecuteCommand session command) s) = Some e ->
             errors_Is e ErrTimeout = false)
  /\ (forall e, snd (result w (ExecuteScript session script env) s) = Some e ->
                errors_Is e ErrTimeout = false).
Proof.
  unfold result. split; intros e.
  - destruct (ExecuteCommand_cases w s session command)
      as [(err & s1 & H)|(out & closed & s1 & H)]; rewrite H; cbn [fst snd].
    + intros He. injection He as <-. reflexivity.
    + apply commandResult_not_Timeout.
  - destruct (ExecuteScript_cases w s session script env)
      as [(err & s1 & H)|(out & closed & s1 & H)]; rewrite H; cbn [fst snd].
    + intros He. injection He as <-. reflexivity.
    + apply commandResult_not_Timeout.
Qed.

(** C9, as the code has it.  The five kinds are told apart by [errors.Is],
    so an error of the Timeout kind would be distinguishable from the other
    four; but no function of the layer returns one, in any world.  A dial
    that fails without an HTTP response, as it does when the deadline of
    the context passes, returns an error of the ConnectionFailed kind whose
    text carries the text of the underlying error. *)
Theorem Timeout_kind_is_never_returned {S : Type} (w : World S) (s : S)
  (c : TunnelConfig) (session : vmSession) (command script content : string)
  (env : list (string * string)) (opts : FileUploadOptions) :
  (forall a b : sentinel, errors_Is (ErrNew a) b = true <-> a = b)
  /\ (forall e, snd (result w (NewVMSession c) s) = Some e ->
                errors_Is e ErrTimeout = false)
  /\ (forall e, snd (result w (ExecuteCommand session command) s) = Some e ->
                errors_Is e ErrTimeout = false)
  /\ (forall e, snd (result w (ExecuteScript session script env) s) = Some e ->
                errors_Is e ErrTimeout = false)
  /\ (forall e, snd (result w (UploadFile session content opts) s) = Some e ->
                errors_Is e ErrTimeout = false)
  /\ (forall e, result w (Close session) s = Some e ->
                errors_Is e ErrTimeout = false)
  /\ (forall e, snd (result w (RunCloudInit c script env) s) = Some e ->
                errors_Is e ErrTimeout = false)
  /\ (forall e, snd (result w (UploadAndRunScript c script env) s) = Some e ->
                errors_Is e ErrTimeout = false)
  /\ (forall err : string,
        dialAnswer (trace w (dialWebSocket c) s) = Some (DialFail None err) ->
        exists e,
          result w (dialWebSocket c) s = (None, Some e)
          /\ errors_Is e ErrConnectionFailed = true
          /\ errors_Is e ErrTimeout = false
          /\ Error e = err ++ ": failed to connect to Orchard controller").
Proof.
  split; [exact errors_Is_sentinel|].
  split; [intros e; apply NewVMSession_not_Timeout|].
  split; [apply (Execute_not_Timeout w s session command script env)|].
  split; [apply (Execute_not_Timeout w s session command script env)|].
  split; [intros e; apply UploadFile_not_Timeout|].
  split; [intros e; apply Close_not_Timeout|].
  split; [apply (facade_not_Timeout w s c script env)|].
  split; [apply (facade_not_Timeout w s c script env)|].
  intros err Hd.
  destruct (dialWebSocket_run_failed w s c None err Hd) as [Hr He].
  exists (dialError c None err). split; [exact Hr|]. repeat split.
Qed.

Lemma Timeout_kind_is_never_returned_witness :
  exists e : error,
    result (scripted deadlinePassed) (dialWebSocket testConfig) tt = (None, Some e)
    /\ errors_Is e ErrConnectionFailed = true
    /\ errors_Is e ErrTimeout = false.
Proof.
  destruct (proj2 (proj2 (proj2 (proj2 (proj2 (proj2 (proj2 (proj2
              (Timeout_kind_is_never_returned (scripted deadlinePassed) tt
                 testConfig
                 (mkVMSession testConfig (Some Handle) (Some Handle) None)
                 "true" "true" "true" [] (mkFileUploadOptions "/tmp/f" 0 false)))))))))
              "failed to WebSocket dial: failed to send handshake request: context deadline exceeded"
              eq_refl)
    as (e & Hr & Hc & Ht & _).
  exists e. split; [exact Hr|]. split; [exact Hc|exact Ht].
Defined.

(** C9, as the claim words it.  The claim has an exceeded deadline
    reported as an error of the Timeout kind.  Here the deadline passes
    during the dial, and the error [NewVMSession] and [RunCloudInit] return
    is of the ConnectionFailed kind and not of the Timeout kind. *)
Lemma deadline_is_reported_as_ConnectionFailed :
  exists e : error,
    result (scripted deadlinePassed) (NewVMSession testConfig) tt = (None, Some e)
    /\ result (scripted deadlinePassed) (RunCloudInit testConfig "true" []) tt
       = (None, Some e)
    /\ errors_Is e ErrTimeout = false
    /\ errors_Is e ErrConnectionFailed = true.
Proof. eexists. repeat split; reflexivity. Qed.

(** ** The stream adapter *)

Section StreamFacts.
Import Stream.
Local Open Scope list_scope.
Local Open Scope nat_scope.

Variable chunk : list byte -> nat -> nat.
Variable eofWithData : list byte -> nat -> bool.

Abbreviation reader_Read := (Stream.reader_Read chunk eofWithData).
Abbreviation readNext := (Stream.readNext chunk eofWithData).
Abbreviation Read := (Stream.Read chunk eofWithData).
Abbreviation readUntil := (Stream.readUntil chunk eofWithData).

(** One [Read] of a message reader hands over a prefix of the unread
    bytes, at most as many as the buffer holds, and keeps the others; it
    reports [io.EOF] only when none are left. *)
Lemma reader_Read_prefix (r r' : msgReader) (len : nat) (out : list byte)
  (err : option ioerr) :
  reader_Read r len = (out, r', err) ->
  out ++ rest r' = rest r
  /\ length out <= len
  /\ rfault r' = rfault r
  /\ (err = Some EOF -> rest r' = [] /\ rfault r = None)
  /\ (rest r <> [] -> forall e, err <> Some (IOErr e)).
Proof.
  unfold Stream.reader_Read. destruct r as [unread flt]. cbn [rest rfault].
  destruct unread as [|b unread].
  - destruct flt; intros H; injection H as <- <- <-; cbn [rest rfault];
      repeat split; intros; simpl; try lia; congruence.
  - set (n := Nat.min (chunk (b :: unread) len)
                (Nat.min len (length (b :: unread)))).
    intros H. injection H as <- <- <-. cbn [rest rfault].
    split; [apply take_drop|]. split; [rewrite length_take; lia|].
    split; [reflexivity|]. split.
    + destruct (drop n (b :: unread)); [|discriminate].
      destruct flt; [discriminate|]. intros _. split; reflexivity.
    + intros _ e. destruct (drop n (b :: unread)); [|discriminate].
      destruct flt; [discriminate|]. destruct (eofWithData _ _); discriminate.
Qed.

Lemma pending_set_reader (c : wsNetConn) (r : option msgReader) :
  pending (set_reader c r)
  = match r with Some r => rest r | None => [] end
    ++ concat (map payload (inbound c)).
Proof. reflexivity. Qed.

(** Fetching the next message and reading from it loses nothing. *)
Lemma readNext_no_loss (c c' : wsNetConn) (len : nat) (out : list byte)
  (err : option ioerr) :
  reader c = None ->
  readNext c len = (c', out, err) ->
  out ++ pending c' = pending c
  /\ length out <= len
  /\ outbound c' = outbound c.
Proof.
  intros Hr. unfold Stream.readNext, ws_Reader.
  destruct (down c) as [e|].
  { intros H. injection H as <- <- <-. simpl. split; [reflexivity|]. split; [lia|reflexivity]. }
  destruct (inbound c) as [|m ms] eqn:Hin.
  { intros H. injection H as <- <- <-. simpl. split; [reflexivity|]. split; [lia|reflexivity]. }
  destruct (reader_Read (mkMsgReader (payload m) (fault m)) len)
    as [[out1 r1] err1] eqn:Hread.
  intros H. injection H as <- <- <-.
  destruct (reader_Read_prefix _ _ _ _ _ Hread) as (Hp & Hl & _).
  cbn [rest] in Hp. unfold pending. rewrite Hr, Hin. cbn.
  rewrite app_assoc, Hp. split; [reflexivity|]. split; [exact Hl|reflexivity].
Qed.

(** [Read] loses, repeats and reorders nothing: the bytes it returns,
    followed by the bytes still pending afterwards, are the bytes that
    were pending before; it returns at most as many as the buffer holds;
    and it sends nothing. *)
Lemma Read_no_loss (c c' : wsNetConn) (len : nat) (out : list byte)
  (err : option ioerr) :
  Read c len = (c', out, err) ->
  out ++ pending c' = pending c
  /\ length out <= len
  /\ outbound c' = outbound c.
Proof.
  unfold Stream.Read. destruct (reader c) as [r|] eqn:Hr.
  - destruct (reader_Read r len) as [[out1 r1] err1] eqn:Hread.
    destruct (reader_Read_prefix _ _ _ _ _ Hread) as (Hp & Hl & _ & He & _).
    assert (Hpend : pending c = rest r ++ concat (map payload (inbound c))).
    { unfold pending. now rewrite Hr. }
    destruct err1 as [[|e]|].
    + destruct (He eq_refl) as [Hnil _]. rewrite Hnil, app_nil_r in Hp.
      destruct (0 <? length out1) eqn:Hpos.
      * intros H. injection H as <- <- <-.
        rewrite pending_set_reader, Hpend, <- Hp. cbn.
        split; [reflexivity|]. split; [exact Hl|reflexivity].
      * intros H. apply readNext_no_loss in H; [|reflexivity].
        rewrite pending_set_reader in H. cbn in H.
        apply Nat.ltb_ge in Hpos.
        assert (out1 = []) as -> by (destruct out1; [reflexivity|simpl in Hpos; lia]).
        rewrite Hpend, <- Hp. exact H.
    + intros H. injection H as <- <- <-.
      rewrite pending_set_reader, Hpend, <- Hp, app_assoc. cbn.
      split; [reflexivity|]. split; [exact Hl|reflexivity].
    + intros H. injection H as <- <- <-.
      rewrite pending_set_reader, Hpend, <- Hp, app_assoc. cbn.
      split; [reflexivity|]. split; [exact Hl|reflexivity].
  - intros H. apply readNext_no_loss in H; assumption.
Qed.

(** While the current message has unread bytes, [Read] serves them and
    fetches no new message. *)
Lemma Read_drains_first (c c' : wsNetConn) (r : msgReader) (len : nat)
  (out : list byte) (err : option ioerr) :
  reader c = Some r -> rest r <> [] ->
  Read c len = (c', out, err) ->
  inbound c' = inbound c
  /\ err = None
  /\ out = take (length out) (rest r)
  /\ match reader c' with
     | Some r' => rest r' = drop (length out) (rest r)
     | None => out = rest r
     end.
Proof.
  intros Hr Hne. unfold Stream.Read. rewrite Hr.
  destruct (reader_Read r len) as [[out1 r1] err1] eqn:Hread.
  destruct (reader_Read_prefix _ _ _ _ _ Hread) as (Hp & Hl & _ & He & Hio).
  assert (Ht : out1 = take (length out1) (rest r)).
  { rewrite <- Hp. now rewrite take_app_length. }
  assert (Hd : rest r1 = drop (length out1) (rest r)).
  { rewrite <- Hp. now rewrite drop_app_length. }
  destruct err1 as [[|e]|].
  - destruct (He eq_refl) as [Hnil _]. rewrite Hnil, app_nil_r in Hp.
    destruct (0 <? length out1) eqn:Hpos.
    + intros H. injection H as <- <- <-. cbn. repeat split; assumption.
    + apply Nat.ltb_ge in Hpos. exfalso. apply Hne. rewrite <- Hp.
      destruct out1; [reflexivity|simpl in Hpos; lia].
  - exfalso. exact (Hio Hne e eq_refl).
  - intros H. injection H as <- <- <-. cbn. repeat split; assumption.
Qed.

(** [Write] sends the whole buffer as one message and returns its length,
    or sends nothing and returns an error. *)
Lemma Write_all_or_error (c c' : wsNetConn) (b : list byte) (n : nat)
  (err : option ioerr) :
  Write c b = (c', n, err) ->
  (err = None /\ n = length b /\ outbound c' = outbound c ++ [b]
   /\ inbound c' = inbound c /\ reader c' = reader c)
  \/ (exists e, err = Some e /\ n = 0 /\ c' = c).
Proof.
  unfold Write. destruct (down c) as [e|]; intros H; injection H as <- <- <-.
  - right. exists (IOErr e). repeat split.
  - left. repeat split.
Qed.

(** A reader makes progress: asked for bytes while some are unread, it
    hands over at least one. *)
Hypothesis chunk_progress :
  forall (unread : list byte) (len : nat),
    unread <> [] -> 0 < len -> 0 < chunk unread len.

Lemma reader_Read_progress (r r' : msgReader) (len : nat) (out : list byte)
  (err : option ioerr) :
  rest r <> [] -> 0 < len ->
  reader_Read r len = (out, r', err) -> 0 < length out.
Proof.
  unfold Stream.reader_Read. destruct r as [unread flt]. cbn [rest rfault].
  destruct unread as [|b unread]; [congruence|].
  intros Hne Hlen H. injection H as <- _ _.
  pose proof (chunk_progress (b :: unread) len Hne Hlen) as Hc.
  rewrite length_take. simpl length in *. lia.
Qed.

Lemma Read_tidy (c c' : wsNetConn) (len : nat) (out : list byte)
  (err : option ioerr) :
  tidy c -> pending c <> [] -> 0 < len ->
  Read c len = (c', out, err) ->
  tidy c' /\ 0 < length out
  /\ (err = None \/ (err = Some EOF /\ pending c' = [])).
Proof.
  intros [Hdown Hshape] Hpend Hlen. unfold pending in Hpend.
  unfold Stream.Read, Stream.readNext, ws_Reader.
  destruct (reader c) as [r|] eqn:Hr; destruct (inbound c) as [|m [|m' ms]] eqn:Hin;
    try contradiction; cbn in Hpend; try rewrite app_nil_r in Hpend;
    try congruence.
  - destruct (reader_Read r len) as [[out1 r1] err1] eqn:Hread.
    pose proof (reader_Read_progress _ _ _ _ _ Hpend Hlen Hread) as Hpos.
    destruct (reader_Read_prefix _ _ _ _ _ Hread) as (Hp & Hl & Hf & He & Hio).
    destruct err1 as [[|e]|].
    + apply Nat.ltb_lt in Hpos. rewrite Hpos. intros H. injection H as <- <- <-.
      apply Nat.ltb_lt in Hpos.
      split; [|split; [exact Hpos|left; reflexivity]].
      split; [exact Hdown|]. cbn. now rewrite Hin.
    + exfalso. exact (Hio Hpend e eq_refl).
    + intros H. injection H as <- <- <-.
      split; [|split; [exact Hpos|left; reflexivity]].
      split; [exact Hdown|]. cbn. rewrite Hin. congruence.
  - rewrite Hdown.
    destruct (reader_Read (mkMsgReader (payload m) (fault m)) len)
      as [[out1 r1] err1] eqn:Hread.
    pose proof (reader_Read_progress (mkMsgReader (payload m) (fault m))
                  _ _ _ _ Hpend Hlen Hread) as Hpos.
    destruct (reader_Read_prefix _ _ _ _ _ Hread) as (Hp & Hl & Hf & He & Hio).
    cbn [rest rfault] in *.
    intros H. injection H as <- <- <-.
    split; [|split; [exact Hpos|]].
    + split; [reflexivity|]. cbn. congruence.
    + destruct err1 as [[|e]|].
      * right. split; [reflexivity|]. destruct (He eq_refl) as [Hnil _].
        unfold pending. cbn. now rewrite Hnil.
      * exfalso. exact (Hio Hpend e eq_refl).
      * left. reflexivity.
Qed.

(** In such a state a caller that wants no more bytes than are pending
    gets them, in order, within as many calls as it wants bytes. *)
Lemma readUntil_tidy (len : nat) (Hlen : 0 < len) (fuel : nat) :
  forall (c : wsNetConn) (want : nat),
    tidy c -> want <= length (pending c) -> want <= fuel ->
    exists (c' : wsNetConn) (out : list byte),
      readUntil fuel c len want = (c', out, Done)
      /\ out ++ pending c' = pending c
      /\ want <= length out.
Proof.
  induction fuel as [|fuel IH]; intros c want Ht Hw Hf.
  - assert (want = 0) as -> by lia. exists c, []. repeat split. simpl. lia.
  - destruct want as [|want].
    { exists c, []. repeat split. simpl. lia. }
    cbn [Stream.readUntil].
    destruct (Read c len) as [[c1 out1] err1] eqn:HR.
    assert (Hne : pending c <> []).
    { intros E. rewrite E in Hw. simpl in Hw. lia. }
    destruct (Read_tidy _ _ _ _ _ Ht Hne Hlen HR) as (Ht1 & Hpos & Herr).
    destruct (Read_no_loss _ _ _ _ _ HR) as (Hp & _ & _).
    assert (Hlenp : length (pending c) = length out1 + length (pending c1)).
    { rewrite <- Hp. apply length_app. }
    destruct Herr as [->|[-> Hnil]].
    + destruct (IH c1 (S want - length out1) Ht1) as (c2 & more & HU & Hm & Hwm);
        try lia.
      rewrite HU. exists c2, (out1 ++ more). split; [reflexivity|].
      split; [now rewrite <- app_assoc, Hm|]. rewrite length_app. lia.
    + rewrite Hnil in Hlenp. simpl in Hlenp.
      assert (Hle : S want <= length out1) by lia.
      apply Nat.leb_le in Hle. rewrite Hle.
      exists c1, out1. split; [reflexivity|]. split; [exact Hp|].
      apply Nat.leb_le in Hle. exact Hle.
Qed.

(** C1.  Written in one call to a new adapter and sent back by the peer as
    the one message it is, a byte sequence is read back whole and in order
    by a caller whose buffer holds [len] bytes, however small, within as
    many [Read] calls as there are bytes, and nothing is pending after.
    In every state a [Read] returns a prefix of the pending bytes, no
    longer than the buffer, and leaves the others pending, so no byte is
    lost, returned twice or out of order; while the current message has
    unread bytes a [Read] serves them and fetches no new message; and a
    [Write] sends the whole buffer as one message and returns its length,
    or returns an error and sends nothing. *)
Theorem wsNetConn_round_trip (data : list byte) (len : nat) :
  0 < len ->
  (exists c1 : wsNetConn,
      Write newWSNetConn data = (c1, length data, None)
      /\ outbound c1 = [data]
      /\ forall fuel : nat,
           length data <= fuel ->
           exists c2 : wsNetConn,
             readUntil fuel (echo c1) len (length data) = (c2, data, Done)
             /\ pending c2 = [])
  /\ (forall (c c' : wsNetConn) (n : nat) (out : list byte) (err : option ioerr),
        Read c n = (c', out, err) ->
        out ++ pending c' = pending c
        /\ length out <= n
        /\ outbound c' = outbound c)
  /\ (forall (c c' : wsNetConn) (r : msgReader) (n : nat) (out : list byte)
             (err : option ioerr),
        reader c = Some r -> rest r <> [] ->
        Read c n = (c', out, err) ->
        inbound c' = inbound c
        /\ err = None
        /\ out = take (length out) (rest r)
        /\ match reader c' with
           | Some r' => rest r' = drop (length out) (rest r)
           | None => out = rest r
           end)
  /\ (forall (c c' : wsNetConn) (b : list byte) (n : nat) (err : option ioerr),
        Write c b = (c', n, err) ->
        (err = None /\ n = length b /\ outbound c' = outbound c ++ [b]
         /\ inbound c' = inbound c /\ reader c' = reader c)
        \/ (exists e, err = Some e /\ n = 0 /\ c' = c)).
Proof.
  intros Hlen. split; [|split; [|split]].
  - eexists. split; [reflexivity|]. split; [reflexivity|].
    intros fuel Hfuel.
    destruct (readUntil_tidy len Hlen fuel
                (echo (mkWsNetConn None [] [data] None)) (length data))
      as (c2 & out & HU & Hp & Hw).
    + split; reflexivity.
    + unfold pending, echo. cbn. rewrite app_nil_r. lia.
    + exact Hfuel.
    + unfold pending at 2 in Hp. cbn in Hp. rewrite app_nil_r in Hp.
      assert (Hl : length out + length (pending c2) = length data).
      { rewrite <- length_app. now rewrite Hp. }
      assert (Hnil : pending c2 = []).
      { destruct (pending c2); [reflexivity|simpl in Hl; lia]. }
      rewrite Hnil, app_nil_r in Hp. subst out.
      exists c2. split; [exact HU|exact Hnil].
  - intros c c' n out err. apply Read_no_loss.
  - intros c c' r n out err. apply Read_drains_first.
  - intros c c' b n err. apply Write_all_or_error.
Qed.

End StreamFacts.

Lemma wsNetConn_round_trip_witness :
  exists c1 c2 : Stream.wsNetConn,
    Stream.Write Stream.newWSNetConn hello = (c1, 5%nat, None)
    /\ Stream.readUntil Stream.fullChunk Stream.lateEOF 5 (Stream.echo c1) 2 5
       = (c2, hello, Stream.Done).
Proof.
  destruct (wsNetConn_round_trip Stream.fullChunk Stream.lateEOF
              (fun unread len _ H => H) hello 2 (Nat.lt_0_succ 1))
    as [(c1 & Hw & _ & Hr) _].
  destruct (Hr 5%nat (le_n 5)) as (c2 & HU & _).
  exists c1, c2. split; [exact Hw|exact HU].
Defined.

(** The adapter at work: [hello] arrives as one message and is read with
    a buffer of two bytes; then a reader that reports the end of a message
    together with its last bytes. *)
Example Read_hello_in_three_calls :
  let c0 := Stream.echo (fst (fst (Stream.Write Stream.newWSNetConn hello))) in
  let '(c1, out1, err1) := Stream.Read Stream.fullChunk Stream.lateEOF c0 2 in
  let '(c2, out2, err2) := Stream.Read Stream.fullChunk Stream.lateEOF c1 2 in
  let '(c3, out3, err3) := Stream.Read Stream.fullChunk Stream.lateEOF c2 2 in
  (out1, out2, out3) = ([Init.Byte.x68; Init.Byte.x65],
                        [Init.Byte.x6c; Init.Byte.x6c], [Init.Byte.x6f])
  /\ (err1, err2, err3) = (None, None, None)
  /\ Stream.Read Stream.fullChunk Stream.lateEOF c3 2
     = (Stream.set_reader c3 None, [], Some (Stream.IOErr "context canceled")).
Proof. vm_compute. repeat split. Qed.

Example Read_whole_message_early_EOF :
  let c0 := Stream.echo (fst (fst (Stream.Write Stream.newWSNetConn hello))) in
  snd (Stream.Read Stream.fullChunk (fun _ _ => true) c0 8) = Some Stream.EOF
  /\ snd (fst (Stream.Read Stream.fullChunk (fun _ _ => true) c0 8)) = hello
  /\ Stream.readUntil Stream.fullChunk (fun _ _ => true) 5 c0 8 5
     = (fst (fst (Stream.Read Stream.fullChunk (fun _ _ => true) c0 8)),
        hello, Stream.Done).
Proof. vm_compute. repeat split. Qed.

(** * Further properties *)

(** Unfolding the fields of the output of a command. *)
Ltac unfold_output := cbn [run_err run_stdout run_stderr fst snd].

(** ** More on defaults and on the URL *)

(** X1.  [SetDefaults] leaves no numeric field at zero, changes nothing when
    applied again, and changes a configuration only in fields that were
    zero. *)
Theorem SetDefaults_idempotent_nonzero (c : TunnelConfig) :
  SSHPort (SetDefaults c) <> 0
  /\ WaitSeconds (SetDefaults c) <> 0
  /\ Timeout (SetDefaults c) <> 0
  /\ SetDefaults (SetDefaults c) = SetDefaults c
  /\ (SSHPort c <> 0 -> WaitSeconds c <> 0 -> Timeout c <> 0 ->
      SetDefaults c = c).
Proof.
  assert (Hnz : forall d, SSHPort (SetDefaults d) <> 0
                          /\ WaitSeconds (SetDefaults d) <> 0
                          /\ Timeout (SetDefaults d) <> 0).
  { intros d. destruct (SetDefaults_fills d) as (Hp & Hw & Ht & _).
    rewrite Hp, Hw, Ht.
    destruct (Z.eqb_spec (SSHPort d) 0), (Z.eqb_spec (WaitSeconds d) 0),
      (Z.eqb_spec (Timeout d) 0); unfold Second; repeat split; lia. }
  assert (Hid : forall d, SSHPort d <> 0 -> WaitSeconds d <> 0 ->
                          Timeout d <> 0 -> SetDefaults d = d).
  { intros d Hp Hw Ht. unfold SetDefaults.
    apply Z.eqb_neq in Hp, Hw, Ht. rewrite Hp, Hw, Ht. reflexivity. }
  destruct (Hnz c) as (Hp & Hw & Ht).
  repeat split; try assumption.
  - apply Hid; assumption.
  - apply Hid.
Qed.

Lemma SetDefaults_idempotent_nonzero_witness :
  SetDefaults (mkTunnelConfig "http://localhost:6120/v1" "t" "vm" 2222 60
                 "admin" "admin" (60 * Second))
  = mkTunnelConfig "http://localhost:6120/v1" "t" "vm" 2222 60
      "admin" "admin" (60 * Second).
Proof.
  apply (proj2 (proj2 (proj2 (proj2
           (SetDefaults_idempotent_nonzero
              (mkTunnelConfig "http://localhost:6120/v1" "t" "vm" 2222 60
                 "admin" "admin" (60 * Second))))))); discriminate.
Defined.

Lemma unescape_escaped_byte (c : ascii) (s : string) :
  NetURL.unescape
    (String "%" (String (GoStr.upperhex (nat_of_ascii c / 16))
                   (String (GoStr.upperhex (nat_of_ascii c mod 16)) s)))
  = NetURL.bind (NetURL.unescape s) (fun t => NetURL.Ok (String c t)).
Proof.
  destruct c as [[] [] [] [] [] [] [] []]; reflexivity.
Qed.

Lemma unescape_kept_byte (c : ascii) (s : string) :
  NetURL.shouldEscapeSegment c = false ->
  NetURL.unescape (String c s)
  = NetURL.bind (NetURL.unescape s) (fun t => NetURL.Ok (String c t)).
Proof.
  intros H.
  assert (Hp : Ascii.eqb c "%" = false).
  { destruct (Ascii.eqb_spec c "%") as [->|]; [discriminate H|reflexivity]. }
  cbn [NetURL.unescape]. rewrite Hp. reflexivity.
Qed.

(** X2.  Percent-decoding the path segment [url.PathEscape] makes of a target
    identifier gives the identifier back, whatever bytes it holds. *)
Theorem PathEscape_unescape (name : string) :
  NetURL.unescape (NetURL.PathEscape name) = NetURL.Ok name.
Proof.
  induction name as [|c s IH]; [reflexivity|].
  cbn [NetURL.PathEscape].
  destruct (NetURL.shouldEscapeSegment c) eqn:E.
  - rewrite unescape_escaped_byte, IH. reflexivity.
  - rewrite (unescape_kept_byte c _ E), IH. reflexivity.
Qed.

(** ** A base address that does not parse *)

(** X3.  When [url.Parse] rejects the base address, [buildWebSocketURL]
    returns the empty string and an error whose text names the quoted
    address and the reason, and [dialWebSocket] returns that error wrapped
    with "failed to build WebSocket URL" without making any call; the
    error is of none of the five kinds. *)
Theorem dialWebSocket_bad_base_URL {S : Type} (w : World S) (s : S)
  (c : TunnelConfig) (reason : string) :
  NetURL.Parse (OrchardBaseURL c) = NetURL.Err reason ->
  exists e : error,
    buildWebSocketURL c = (EmptyString, Some e)
    /\ Error e = "invalid Orchard base URL " ++ GoStr.Quote (OrchardBaseURL c)
                 ++ ": " ++ reason
    /\ run w (dialWebSocket c) s
       = ((None, Some (Wrap e "failed to build WebSocket URL")), s, [])
    /\ run w (NewVMSession c) s
       = ((None, Some (Wrap e "failed to build WebSocket URL")), s, [])
    /\ forall kind : sentinel,
         errors_Is (Wrap e "failed to build WebSocket URL") kind = false.
Proof.
  intros Hp.
  assert (Hb : forall d, OrchardBaseURL d = OrchardBaseURL c ->
                 buildWebSocketURL d
                 = (EmptyString,
                    Some (ErrorfW ("invalid Orchard base URL "
                                   ++ GoStr.Quote (OrchardBaseURL c) ++ ": " ++ reason)
                            (ErrLib reason)))).
  { intros d Hd. unfold buildWebSocketURL, buildWebSocketURLWith.
    rewrite Hd, Hp. reflexivity. }
  eexists. split; [apply Hb; reflexivity|]. split; [reflexivity|].
  split; [|split].
  - unfold dialWebSocket. rewrite (Hb c eq_refl). reflexivity.
  - unfold NewVMSession, dialWebSocket. rewrite Hb; [reflexivity|].
    apply (SetDefaults_fills c).
  - intros kind. reflexivity.
Qed.

Lemma dialWebSocket_bad_base_URL_witness :
  exists e : error,
    run (scripted (exits 0 EmptyString))
      (dialWebSocket (urlConfig "://invalid" "test-vm" 22 0)) tt
    = ((None, Some (Wrap e "failed to build WebSocket URL")), tt, []).
Proof.
  destruct (dialWebSocket_bad_base_URL (scripted (exits 0 EmptyString)) tt
              (urlConfig "://invalid" "test-vm" 22 0)
              ("parse " ++ GoStr.Quote "://invalid" ++ ": missing protocol scheme")
              eq_refl) as (e & _ & _ & Hr & _).
  exists e. exact Hr.
Defined.

(** ** The request of the dial *)

(** X4.  When the URL can be built, [dialWebSocket] dials exactly once, that
    URL, with the User-Agent header of the provider and, only when a token
    is configured, an Authorization header carrying it as bearer; when the
    dial succeeds the read limit is lifted right after it and the
    connection is returned with a nil error. *)
Theorem dialWebSocket_request {S : Type} (w : World S) (s : S)
  (c : TunnelConfig) (url : string) :
  buildWebSocketURL c = (url, None) ->
  exists headers : list (string * string),
    omap dialCallOf (trace w (dialWebSocket c) s) = [(url, headers)]
    /\ headers
       = ("User-Agent", "provider-orchard/1.0")
         :: (if String.eqb (BearerToken c) EmptyString then []
             else [("Authorization", "Bearer " ++ BearerToken c)])
    /\ (BearerToken c = EmptyString ->
        forall v, ~ In ("Authorization", v) headers)
    /\ (dialAnswer (trace w (dialWebSocket c) s) = Some DialOk ->
        result w (dialWebSocket c) s = (Some Handle, None)
        /\ trace w (dialWebSocket c) s
           = [Ev (websocket_Dial url headers) DialOk; Ev (ws_SetReadLimit (-1)) tt]).
Proof.
  intros Hb. exists (dialHeaders c). unfold trace, result, dialWebSocket.
  rewrite Hb. cbn [run pbind call].
  destruct (w _ (websocket_Dial url (dialHeaders c)) s) as [[|resp err] s1];
    cbn [run pbind call].
  - destruct (w _ (ws_SetReadLimit (-1)) s1) as [[] s2]. cbn.
    split; [reflexivity|]. split; [reflexivity|]. split.
    + intros Ht v. unfold dialHeaders. rewrite Ht. cbn.
      intros [H|[]]. discriminate H.
    + intros _. split; reflexivity.
  - cbn. split; [reflexivity|]. split; [reflexivity|]. split.
    + intros Ht v. unfold dialHeaders. rewrite Ht. cbn.
      intros [H|[]]. discriminate H.
    + intros H. discriminate H.
Qed.

Lemma dialWebSocket_request_witness :
  omap dialCallOf
    (trace (scripted (exits 0 EmptyString)) (dialWebSocket testConfig) tt)
  = [("ws://localhost:6120/v1/vms/test-vm/port-forward?port=22&wait=30",
      [("User-Agent", "provider-orchard/1.0"); ("Authorization", "Bearer token")])].
Proof.
  destruct (dialWebSocket_request (scripted (exits 0 EmptyString)) tt testConfig
              "ws://localhost:6120/v1/vms/test-vm/port-forward?port=22&wait=30"
              eq_refl) as (h & Ho & Hh & _).
  rewrite Ho, Hh. reflexivity.
Defined.

(** ** Quoting a value for the shell *)

(** Reading one byte between single quotes, and the replacement of a
    quote. *)
Lemma shellWord_single (c : ascii) (s : string) :
  (nat_of_ascii c =? 39)%nat = false ->
  shellWord SingleQuoted (String c s)
  = option_map (String c) (shellWord SingleQuoted s).
Proof. intros H. cbn [shellWord]. rewrite H. reflexivity. Qed.

Lemma shellWord_quoteEscape (s : string) :
  shellWord SingleQuoted (quoteEscape ++ s)
  = option_map (String "'") (shellWord SingleQuoted s).
Proof. reflexivity. Qed.

Lemma shellWord_close (s : string) :
  shellWord SingleQuoted (String "'" s) = shellWord Unquoted s.
Proof. reflexivity. Qed.

Lemma shellWord_escaped (v rest : string) :
  shellWord SingleQuoted (escapeValue v ++ "'" ++ rest)
  = option_map (fun t => v ++ t) (shellWord Unquoted rest).
Proof.
  induction v as [|c v IH].
  - change (escapeValue EmptyString ++ "'" ++ rest) with (String "'" rest).
    rewrite shellWord_close. destruct (shellWord Unquoted rest); reflexivity.
  - rewrite escapeValue_cons, append_assoc.
    destruct (Ascii.eqb_spec "'"%char c) as [<-|Hne].
    + rewrite shellWord_quoteEscape, IH.
      destruct (shellWord Unquoted rest); reflexivity.
    + change (String c EmptyString ++ escapeValue v ++ "'" ++ rest)
        with (String c (escapeValue v ++ "'" ++ rest)).
      rewrite shellWord_single, IH.
      * destruct (shellWord Unquoted rest); reflexivity.
      * apply Nat.eqb_neq. intros E. apply Hne.
        rewrite <- (ascii_nat_embedding c), E. reflexivity.
Qed.

(** X5.  A value survives the quoting.  Put between single quotes after
    [escapeValue], as [ExecuteScript] and [UploadAndRunScript] do, any
    value, whatever quotes and other bytes it holds, is read by the shell
    as one word equal to the value. *)
Theorem escapeValue_shell_round_trip (value : string) :
  shellWord Unquoted ("'" ++ escapeValue value ++ "'") = Some value.
Proof.
  change (shellWord Unquoted ("'" ++ escapeValue value ++ "'"))
    with (shellWord SingleQuoted (escapeValue value ++ "'" ++ EmptyString)).
  rewrite shellWord_escaped. cbn [shellWord option_map]. f_equal.
  induction value as [|c v IH]; [reflexivity|].
  change (String c v ++ EmptyString) with (String c (v ++ EmptyString)).
  now rewrite IH.
Qed.

(** ** The controller: messages and credentials *)

Lemma length_append (a b : string) :
  String.length (a ++ b) = (String.length a + String.length b)%nat.
Proof.
  induction a as [|c a IH]; [reflexivity|].
  change (String c a ++ b) with (String c (a ++ b)).
  cbn [String.length]. now rewrite IH.
Qed.

Lemma substring_prefix (n : nat) (s : string) :
  String.length (String.substring 0 n s) = Nat.min n (String.length s)
  /\ exists tail : string, s = String.substring 0 n s ++ tail.
Proof.
  revert s. induction n as [|n IH]; intros s.
  - destruct s; cbn; (split; [reflexivity|]); eexists; reflexivity.
  - destruct s as [|c s].
    + cbn. split; [reflexivity|]. exists EmptyString. reflexivity.
    + destruct (IH s) as [Hl [tail Ht]].
      change (String.substring 0 (S n) (String c s))
        with (String c (String.substring 0 n s)).
      cbn [String.length]. split; [rewrite Hl; reflexivity|].
      exists tail.
      change (String c (String.substring 0 n s) ++ tail)
        with (String c (String.substring 0 n s ++ tail)).
      now rewrite <- Ht.
Qed.

(** X6.  [truncateMessage] returns at most 1024 bytes; a message that fits
    is returned unchanged; a longer one becomes exactly 1024 bytes, its
    first 1021 followed by three dots; and truncating twice is truncating
    once. *)
Theorem truncateMessage_bound (msg : string) :
  (String.length (VM.truncateMessage msg) <= 1024)%nat
  /\ ((String.length msg <= 1024)%nat -> VM.truncateMessage msg = msg)
  /\ ((1024 < String.length msg)%nat ->
      String.length (VM.truncateMessage msg) = 1024%nat
      /\ exists head tail : string,
           msg = head ++ tail
           /\ String.length head = 1021%nat
           /\ VM.truncateMessage msg = head ++ "...")
  /\ VM.truncateMessage (VM.truncateMessage msg) = VM.truncateMessage msg.
Proof.
  unfold VM.truncateMessage, VM.maxConditionMessageLen.
  destruct (substring_prefix (1024 - 3) msg) as [Hl [tail Ht]].
  set (head := String.substring 0 (1024 - 3) msg) in *.
  assert (Hlen3 : forall h, String.length (h ++ "...") = (String.length h + 3)%nat).
  { intros h. rewrite length_append. reflexivity. }
  destruct (Nat.leb_spec (String.length msg) 1024) as [Hle|Hgt].
  - split; [exact Hle|]. split; [reflexivity|]. split; [lia|].
    apply Nat.leb_le in Hle. now rewrite Hle.
  - assert (Hh : String.length head = 1021%nat) by lia.
    split; [rewrite Hlen3; lia|]. split; [lia|]. split.
    + intros _. split; [rewrite Hlen3; lia|].
      exists head, tail. repeat split; assumption.
    + assert (Hle : (String.length (head ++ "...") <=? 1024)%nat = true).
      { apply Nat.leb_le. rewrite Hlen3. lia. }
      now rewrite Hle.
Qed.

Lemma truncateMessage_bound_witness :
  VM.truncateMessage "cloud-init failed: failed to upload script"
  = "cloud-init failed: failed to upload script".
Proof.
  apply (proj1 (proj2 (truncateMessage_bound
                         "cloud-init failed: failed to upload script"))).
  apply Nat.leb_le. reflexivity.
Defined.

(** X7.  The tunnel configuration the controller builds is complete.  The
    user name and the password are those of the parameters when they are
    set and not empty and [admin] otherwise, so neither is ever empty;
    port, wait and timeout are 22, 30 and 60 seconds, and [SetDefaults],
    which [NewVMSession] applies, changes nothing. *)
Theorem buildTunnelConfig_complete (c : VM.external) (cr : VM.VMResource) :
  let cfg := VM.buildTunnelConfig c cr in
  SetDefaults cfg = cfg
  /\ (SSHPort cfg, WaitSeconds cfg, Timeout cfg) = (22, 30, 60 * Second)
  /\ (OrchardBaseURL cfg, BearerToken cfg, VMName cfg)
     = (VM.baseURL c, VM.token c, VM.ExternalName cr)
  /\ SSHUsername cfg <> EmptyString
  /\ SSHPassword cfg <> EmptyString
  /\ (forall u, VM.Username (VM.ForProvider cr) = Some u -> u <> EmptyString ->
                SSHUsername cfg = u)
  /\ (forall p, VM.Password (VM.ForProvider cr) = Some p -> p <> EmptyString ->
                SSHPassword cfg = p)
  /\ (VM.Username (VM.ForProvider cr) = None
      \/ VM.Username (VM.ForProvider cr) = Some EmptyString ->
      SSHUsername cfg = "admin")
  /\ (VM.Password (VM.ForProvider cr) = None
      \/ VM.Password (VM.ForProvider cr) = Some EmptyString ->
      SSHPassword cfg = "admin").
Proof.
  unfold VM.buildTunnelConfig, VM.getSSHCredentials.
  destruct (VM.Username (VM.ForProvider cr)) as [u|];
    destruct (VM.Password (VM.ForProvider cr)) as [p|];
    try destruct (String.eqb_spec u EmptyString) as [->|Hu];
    try destruct (String.eqb_spec p EmptyString) as [->|Hp];
    cbn; repeat split; try discriminate; try assumption;
    try (intros x Hx; injection Hx as ->; congruence);
    try (intros [H|H]; congruence); try (intros x Hx; discriminate Hx).
Qed.

(** ** Uploading *)

(** Walk through every run of [UploadFile]. *)
Ltac explore_upload w session opts :=
  unfold trace, result, UploadBytes, UploadFile, ensureSFTP, uploadSteps,
    failedSteps, fullUpload;
  destruct session as [cfg ws ssh [[]|]]; destruct opts as [path perm [|]];
  advance; destruct perm; advance; repeat answer_cases w.

(** X8.  Every error of [UploadFile] is of the SFTPFailed kind and of no
    other; the upload succeeds exactly when creating the client, creating
    the directory, creating the file, copying and changing the mode all
    succeeded, whatever closing the file answered; and a successful upload
    made the steps in this order: the client if the session had none, the
    parent directory if asked for, the file, the copy of the content, the
    mode if one is given, the close of the file. *)
Theorem UploadFile_steps {S : Type} (w : World S) (s : S)
  (session : vmSession) (content : string) (opts : FileUploadOptions) :
  (forall e : error,
     snd (result w (UploadFile session content opts) s) = Some e ->
     forall kind : sentinel,
       errors_Is e kind = sentinel_eqb ErrSFTPFailed kind)
  /\ (snd (result w (UploadFile session content opts) s) = None
      <-> failedSteps (trace w (UploadFile session content opts) s) = [])
  /\ (snd (result w (UploadFile session content opts) s) = None ->
      map fst (uploadSteps (trace w (UploadFile session content opts) s))
      = fullUpload (match sftpClient session with Some _ => true | None => false end)
          content opts).
Proof.
  split; [|split].
  - explore_upload w session opts; cbn [fst snd]; intros e He;
      try discriminate He; injection He as <-; intros []; reflexivity.
  - explore_upload w session opts; cbn; split; intros H;
      try reflexivity; discriminate H.
  - explore_upload w session opts; cbn; intros H; try discriminate H;
      reflexivity.
Qed.

Lemma UploadFile_steps_witness :
  map fst (uploadSteps
             (trace (scripted (exits 0 EmptyString))
                (UploadFile (mkVMSession testConfig (Some Handle) (Some Handle) None)
                   "echo" (mkFileUploadOptions "/tmp/s.sh" 493 true)) tt))
  = [StepNewClient; StepMkdirAll "/tmp"; StepCreate "/tmp/s.sh"; StepCopy "echo";
     StepChmod "/tmp/s.sh" 493; StepCloseFile].
Proof.
  exact (proj2 (proj2 (UploadFile_steps (scripted (exits 0 EmptyString)) tt
                         (mkVMSession testConfig (Some Handle) (Some Handle) None)
                         "echo" (mkFileUploadOptions "/tmp/s.sh" 493 true)))
           eq_refl).
Defined.

(** X9.  The file-transfer client is created on first use and kept.  An
    upload on a session that has the client creates none and returns the
    session as it was; on a session without one it asks for the client
    first, once, and the session it returns has the client exactly when
    that succeeded; so a second upload on the returned session creates no
    second client.  No upload changes the configuration, the stream or the
    shell client of the session, and none closes anything of the session. *)
Theorem UploadFile_client_once {S : Type} (w : World S) (s : S)
  (session : vmSession) (content : string) (opts : FileUploadOptions) :
  (sftpClient session <> None ->
   sftpNewAnswer (trace w (UploadFile session content opts) s) = None
   /\ fst (result w (UploadFile session content opts) s) = session)
  /\ (sftpClient session = None ->
      exists answer : option string,
        omap sftpNewOf (trace w (UploadFile session content opts) s) = [answer]
        /\ head (trace w (UploadFile session content opts) s)
           = Some (Ev sftp_NewClient answer)
        /\ sftpClient (fst (result w (UploadFile session content opts) s))
           = match answer with None => Some Handle | Some _ => None end)
  /\ (forall (s1 : S) (content2 : string) (opts2 : FileUploadOptions),
        sftpClient (fst (result w (UploadFile session content opts) s)) <> None ->
        sftpNewAnswer
          (trace w (UploadFile (fst (result w (UploadFile session content opts) s))
                      content2 opts2) s1) = None)
  /\ config (fst (result w (UploadFile session content opts) s)) = config session
  /\ wsConn (fst (result w (UploadFile session content opts) s)) = wsConn session
  /\ sshClient (fst (result w (UploadFile session content opts) s))
     = sshClient session
  /\ closes (trace w (UploadFile session content opts) s) = [].
Proof.
  assert (Hhas : forall (s0 : S) (se : vmSession) (ct : string) (op : FileUploadOptions),
             sftpClient se <> None ->
             sftpNewAnswer (trace w (UploadFile se ct op) s0) = None
             /\ fst (result w (UploadFile se ct op) s0) = se).
  { intros s0 se ct op. explore_upload w se op; cbn; intros H;
      try (exfalso; apply H; reflexivity); split; reflexivity. }
  split; [apply Hhas|]. split; [|split; [|split; [|split; [|split]]]].
  - explore_upload w session opts; cbn; intros H; try discriminate H;
      eexists; repeat split; reflexivity.
  - intros s1 content2 opts2 H. apply (Hhas s1 _ content2 opts2 H).
  - explore_upload w session opts; reflexivity.
  - explore_upload w session opts; reflexivity.
  - explore_upload w session opts; reflexivity.
  - explore_upload w session opts; reflexivity.
Qed.

Lemma UploadFile_client_once_witness :
  sftpNewAnswer
    (trace (scripted (exits 0 EmptyString))
       (UploadFile (mkVMSession testConfig (Some Handle) (Some Handle) (Some Handle))
          "echo" (mkFileUploadOptions "/tmp/s.sh" 493 true)) tt)
  = None.
Proof.
  apply (proj1 (UploadFile_client_once (scripted (exits 0 EmptyString)) tt
                  (mkVMSession testConfig (Some Handle) (Some Handle) (Some Handle))
                  "echo" (mkFileUploadOptions "/tmp/s.sh" 493 true))).
  discriminate.
Defined.

(** ** Execution channels *)

Lemma held_app (k : holding) (t1 t2 : list Event) :
  held k (t1 ++ t2)%list = held k t1 + held k t2.
Proof. induction t1 as [|e t1 IH]; simpl; [reflexivity|]. rewrite IH. lia. Qed.

(** X10.  [ExecuteCommand] and [ExecuteScript] open one execution channel per
    call and close it after [session.Run] whatever [Run] returned, and
    close nothing of the session.  When the channel opened, the command is
    run as given, without standard input, respectively [/bin/bash] with the
    script text as standard input, and a result is returned even together
    with an error: it holds the two captured outputs, and the exit status
    of an [*ssh.ExitError] or else 0.  When the channel did not open,
    nothing is run and no result is returned. *)
Theorem Execute_channel_discipline {S : Type} (w : World S) (s : S)
  (session : vmSession) (command script : string)
  (env : list (string * string)) :
  let exitCode (out : RunOutput) : Z :=
    match run_err out with RunExitError status => status | _ => 0 end in
  (held HeldChannel (trace w (ExecuteCommand session command) s) = 0
   /\ closes (trace w (ExecuteCommand session command) s) = []
   /\ (newSessionAnswer (trace w (ExecuteCommand session command) s) = Some None ->
       exists out,
         omap runOf (trace w (ExecuteCommand session command) s)
         = [(command, None, out)]
         /\ fst (result w (ExecuteCommand session command) s)
            = Some (mkCommandResult (exitCode out) (run_stdout out) (run_stderr out)))
   /\ (newSessionAnswer (trace w (ExecuteCommand session command) s) <> Some None ->
       omap runOf (trace w (ExecuteCommand session command) s) = []
       /\ fst (result w (ExecuteCommand session command) s) = None))
  /\ (held HeldChannel (trace w (ExecuteScript session script env) s) = 0
      /\ closes (trace w (ExecuteScript session script env) s) = []
      /\ (newSessionAnswer (trace w (ExecuteScript session script env) s)
          = Some None ->
          exists out,
            omap runOf (trace w (ExecuteScript session script env) s)
            = [("/bin/bash", Some (scriptText script env), out)]
            /\ fst (result w (ExecuteScript session script env) s)
               = Some (mkCommandResult (exitCode out) (run_stdout out)
                         (run_stderr out)))
      /\ (newSessionAnswer (trace w (ExecuteScript session script env) s)
          <> Some None ->
          omap runOf (trace w (ExecuteScript session script env) s) = []
          /\ fst (result w (ExecuteScript session script env) s) = None)).
Proof.
  intros exitCode. unfold trace, result. split.
  - destruct (ExecuteCommand_cases w s session command)
      as [(err & s1 & H)|(out & closed & s1 & H)]; rewrite H; cbn.
    + repeat split; try discriminate.
    + split; [reflexivity|]. split; [reflexivity|]. split.
      * intros _. exists out. split; [reflexivity|].
        unfold commandResult, exitCode. destruct (run_err out); reflexivity.
      * intros Hn. exfalso. apply Hn. reflexivity.
  - destruct (ExecuteScript_cases w s session script env)
      as [(err & s1 & H)|(out & closed & s1 & H)]; rewrite H; cbn.
    + repeat split; try discriminate.
    + split; [reflexivity|]. split; [reflexivity|]. split.
      * intros _. exists out. split; [reflexivity|].
        unfold commandResult, exitCode. destruct (run_err out); reflexivity.
      * intros Hn. exfalso. apply Hn. reflexivity.
Qed.

Lemma Execute_channel_discipline_witness :
  exists out : RunOutput,
    omap runOf
      (trace (scripted (exits 42 "hello"))
         (ExecuteCommand (mkVMSession testConfig (Some Handle) (Some Handle) None)
            "echo hello; exit 42") tt)
    = [("echo hello; exit 42", None, out)].
Proof.
  destruct (proj1 (proj2 (proj2 (proj1
              (Execute_channel_discipline (scripted (exits 42 "hello")) tt
                 (mkVMSession testConfig (Some Handle) (Some Handle) None)
                 "echo hello; exit 42" EmptyString []))))
              eq_refl) as (out & Ho & _).
  exists out. exact Ho.
Defined.

(** ** Nothing is left open *)

(** What a session holds, by its fields. *)
Lemma Close_releases {S : Type} (w : World S) (s : S) (session : vmSession)
  (k : holding) :
  held k (trace w (Close session) s)
  = - match k with
      | HeldStream => match wsConn session with Some _ => 1 | None => 0 end
      | HeldShell => match sshClient session with Some _ => 1 | None => 0 end
      | HeldTransfer => match sftpClient session with Some _ => 1 | None => 0 end
      | _ => 0
      end.
Proof.
  unfold trace, Close, wsNetConn_Close.
  destruct session as [cfg [[]|] [[]|] [[]|]]; advance;
    repeat answer_cases w; destruct k; reflexivity.
Qed.

(** X11.  [NewVMSession] hands over exactly what it returns.  When it returns
    a session, the run acquired one stream and one shell client and
    released nothing, and closing that session releases both, so that
    opening and closing leaves nothing open; when it returns an error,
    whatever it had acquired is released before it returns. *)
Theorem NewVMSession_then_Close_balanced {S : Type} (w : World S) (s : S)
  (c : TunnelConfig) (k : holding) :
  match run w (NewVMSession c) s with
  | ((Some session, _), s1, t1) =>
      held k t1 = match k with HeldStream | HeldShell => 1 | _ => 0 end
      /\ held k (t1 ++ trace w (Close session) s1)%list = 0
  | ((None, _), _, t1) => held k t1 = 0
  end.
Proof.
  destruct (NewVMSession_cases w s c)
    as [(e0 & _ & H)|[(resp & err0 & s1 & H)|[(err0 & closed & s1 & H)|(s1 & H)]]];
    rewrite H.
  - reflexivity.
  - destruct k; reflexivity.
  - destruct k; reflexivity.
  - split; [destruct k; reflexivity|].
    rewrite (held_app k _ (trace w (Close _) s1)), Close_releases.
    destruct k; reflexivity.
Qed.

Lemma RunCloudInit_held {S : Type} (w : World S) (s : S)
  (c : TunnelConfig) (script : string) (env : list (string * string))
  (k : holding) :
  held k (trace w (RunCloudInit c script env) s) = 0.
Proof. explore w c; destruct k; reflexivity. Qed.

(** Every run of [UploadAndRunScript]: nothing is left open, a nil error
    comes with a result, and the only command run is the command line. *)
Lemma UploadAndRunScript_runs {S : Type} (w : World S) (s : S)
  (c : TunnelConfig) (script : string) (env : list (string * string)) :
  (forall k : holding, held k (trace w (UploadAndRunScript c script env) s) = 0)
  /\ match result w (UploadAndRunScript c script env) s with
     | (None, None) => False
     | (Some res, None) =>
         exists out,
           omap runOf (trace w (UploadAndRunScript c script env) s)
           = [(commandLine env, None, out)]
           /\ commandResult out "command execution failed" = (Some res, None)
     | (_, Some e) =>
         omap runOf (trace w (UploadAndRunScript c script env) s) = []
         \/ exists out,
              omap runOf (trace w (UploadAndRunScript c script env) s)
              = [(commandLine env, None, out)]
     end.
Proof.
  split.
  - intros k. explore w c; destruct k; reflexivity.
  - explore w c; unfold commandResult;
      unfold_output;
      try match goal with
        | |- context [match ?r with RunNil => _ | RunExitError _ => _ | RunOther _ => _ end] =>
            destruct r
        end;
      cbn;
      first [ left; reflexivity
            | right; eexists; reflexivity
            | eexists; split; reflexivity ].
Qed.

(** X12.  The facade leaves nothing open.  In every world and on every path,
    at the end of [RunCloudInit] and of [UploadAndRunScript] each stream,
    shell client, file-transfer client, execution channel and remote file
    the run acquired has had its close called. *)
Theorem facade_leaves_nothing_open {S : Type} (w : World S) (s : S)
  (c : TunnelConfig) (script : string) (env : list (string * string))
  (k : holding) :
  held k (trace w (RunCloudInit c script env) s) = 0
  /\ held k (trace w (UploadAndRunScript c script env) s) = 0.
Proof.
  split; [apply RunCloudInit_held|apply (UploadAndRunScript_runs w s c script env)].
Qed.

(** ** The controller: provisioning *)

(** A program run in two parts. *)
Lemma run_parts {S A B : Type} (w : World S) (p : Prog A) (f : A -> Prog B) (s : S) :
  result w (pbind p f) s = result w (f (result w p s)) (final w p s)
  /\ trace w (pbind p f) s
     = (trace w p s ++ trace w (f (result w p s)) (final w p s))%list.
Proof.
  unfold result, trace, final. rewrite run_bind.
  destruct (run w p s) as [[a s1] t1]. cbn [fst snd].
  destruct (run w (f a) s1) as [[b s2] t2]. split; reflexivity.
Qed.

Lemma isSSHReady_runs {S : Type} (w : World S) (s : S)
  (c : VM.external) (cr : VM.VMResource) :
  exists ready : bool,
    result w (VM.isSSHReady c cr) s = VM.Returned ready
    /\ (ready = true
        <-> exists out,
              omap runOf (trace w (VM.isSSHReady c cr) s) = [("ls -al", None, out)]
              /\ (run_err out = RunNil \/ run_err out = RunExitError 0))
    /\ (forall k : holding, held k (trace w (VM.isSSHReady c cr) s) = 0)
    /\ (forall cmd stdin out,
          In (cmd, stdin, out) (omap runOf (trace w (VM.isSSHReady c cr) s)) ->
          cmd = "ls -al").
Proof.
  unfold VM.isSSHReady.
  explore w (VM.buildTunnelConfig c cr); unfold commandResult;
    unfold_output;
    try match goal with
      | |- context [match ?r with RunNil => _ | RunExitError _ => _ | RunOther _ => _ end] =>
          destruct r as [|status|err]
      end;
    cbn [ExitCode];
    try match goal with
      | |- context [(?x =? 0)%Z] => destruct (Z.eqb_spec x 0) as [->|Hnz]
      end;
    eexists; (split; [reflexivity|]); cbn;
    (split; [|split; [intros k; destruct k; reflexivity|
                      intros cmd stdin o Hin; cbn in Hin;
                      repeat (destruct Hin as [Hin|Hin];
                              [injection Hin as <- _ _; reflexivity|]);
                      contradiction]]);
    split; intros H; try discriminate H; try reflexivity;
    try (eexists; split; [reflexivity|]; cbn; tauto);
    try (destruct H as (out & Ho & Hr); try discriminate Ho;
         injection Ho as <-; cbn in Hr; destruct Hr as [Hr|Hr];
         try discriminate Hr; injection Hr as Hr; congruence).
Qed.

(** X13.  [isSSHReady] never dereferences a nil session or result; it
    answers true exactly when the session opened and [ls -al], run as it
    is, ended with status 0; and on every path, ready or not, it leaves
    nothing open. *)
Theorem isSSHReady_answers {S : Type} (w : World S) (s : S)
  (c : VM.external) (cr : VM.VMResource) :
  exists ready : bool,
    result w (VM.isSSHReady c cr) s = VM.Returned ready
    /\ (ready = true
        <-> exists out,
              omap runOf (trace w (VM.isSSHReady c cr) s) = [("ls -al", None, out)]
              /\ (run_err out = RunNil \/ run_err out = RunExitError 0))
    /\ (forall k : holding, held k (trace w (VM.isSSHReady c cr) s) = 0).
Proof.
  destruct (isSSHReady_runs w s c cr) as (ready & Hr & Hq & Hh & _).
  exists ready. split; [exact Hr|]. split; [exact Hq|exact Hh].
Qed.


(** X14.  A resource that needs no provisioning costs no call.  Without a
    start-up script, or with an empty one, [handleCloudInit] marks the
    resource Available; with the status [completed] likewise; with the
    status [failed] it marks it Unavailable with the stored message cut to
    1024 bytes; with the status [running] it marks it Creating and does
    not run the script again.  In all four cases it makes no call, returns
    a nil error and leaves the cloud-init status and message as they
    were. *)
Theorem handleCloudInit_settled {S : Type} (w : World S) (s : S)
  (c : VM.external) (cr : VM.VMResource) :
  let noScript :=
    match VM.Startup (VM.ForProvider cr) with
    | None => True
    | Some startup => VM.ScriptContent startup = EmptyString
    end in
  let answers (reason : VM.ConditionReason) (message : string) :=
    run w (VM.handleCloudInit c cr) s
    = (VM.Returned (VM.SetConditions cr (VM.mkCondition reason message), None),
       s, []) in
  (noScript -> answers VM.Available EmptyString)
  /\ (~ noScript -> VM.CloudInitStatus cr = "completed" ->
      answers VM.Available EmptyString)
  /\ (~ noScript -> VM.CloudInitStatus cr = "failed" ->
      answers VM.Unavailable (VM.truncateMessage (VM.CloudInitMessage cr)))
  /\ (~ noScript -> VM.CloudInitStatus cr = "running" ->
      answers VM.Creating EmptyString).
Proof.
  intros noScript answers. subst noScript answers.
  unfold VM.handleCloudInit, VM.getCloudInitStatus.
  destruct (VM.Startup (VM.ForProvider cr)) as [startup|].
  - destruct (String.eqb_spec (VM.ScriptContent startup) EmptyString) as [E|E].
    + repeat split; intros; try contradiction; reflexivity.
    + split; [intros H; contradiction|].
      split; [|split]; intros _ Hs; rewrite Hs; reflexivity.
  - repeat split; intros; try reflexivity; exfalso; auto.
Qed.

(** [executeCloudInit] when the tunnel is not ready, and when it is. *)
Lemma executeCloudInit_not_ready {S : Type} (w : World S) (s : S)
  (c : VM.external) (cr : VM.VMResource) :
  let cr0 := VM.setCloudInitStatus cr VM.CloudInitStatusRunning EmptyString in
  result w (VM.isSSHReady c cr0) s = VM.Returned false ->
  result w (VM.executeCloudInit c cr) s
  = VM.Returned (VM.setCloudInitStatus cr0 VM.CloudInitStatusPending "waiting for SSH",
                 Some (Errorf VM.errSSHNotReady))
  /\ trace w (VM.executeCloudInit c cr) s = trace w (VM.isSSHReady c cr0) s.
Proof.
  intros cr0 Hr. unfold VM.executeCloudInit. fold cr0.
  match goal with
  | |- context [pbind ?p ?f] => destruct (run_parts w p f s) as [Hres Htr]
  end.
  rewrite Hres, Htr, Hr. cbn. split; [reflexivity|apply app_nil_r].
Qed.

Lemma executeCloudInit_ready {S : Type} (w : World S) (s : S)
  (c : VM.external) (cr : VM.VMResource) (startup : VM.StartupScript) :
  let cr0 := VM.setCloudInitStatus cr VM.CloudInitStatusRunning EmptyString in
  let upload := UploadAndRunScript (VM.buildTunnelConfig c cr0)
                  (VM.ScriptContent startup) (VM.Env startup) in
  let s1 := final w (VM.isSSHReady c cr0) s in
  VM.Startup (VM.ForProvider cr) = Some startup ->
  result w (VM.isSSHReady c cr0) s = VM.Returned true ->
  trace w (VM.executeCloudInit c cr) s
  = (trace w (VM.isSSHReady c cr0) s ++ trace w upload s1)%list
  /\ result w (VM.executeCloudInit c cr) s
     = match result w upload s1 with
       | (_, Some err) =>
           let message := "cloud-init failed: " ++ Error err in
           VM.Returned
             (VM.SetConditions
                (VM.setCloudInitStatus cr0 VM.CloudInitStatusFailed message)
                (VM.mkCondition VM.Unavailable (VM.truncateMessage message)),
              None)
       | (Some res, None) =>
           if negb (ExitCode res =? 0)%Z then
             let message := "exit code " ++ GoStr.Itoa (ExitCode res)
                            ++ ": " ++ Stderr res in
             VM.Returned
               (VM.SetConditions
                  (VM.setCloudInitStatus cr0 VM.CloudInitStatusFailed message)
                  (VM.mkCondition VM.Unavailable (VM.truncateMessage message)),
                None)
           else
             VM.Returned
               (VM.SetConditions
                  (VM.setCloudInitStatus cr0 VM.CloudInitStatusCompleted EmptyString)
                  (VM.mkCondition VM.Available EmptyString),
                None)
       | (None, None) => VM.Panicked
       end.
Proof.
  intros cr0 upload s1 Hs Hr. unfold VM.executeCloudInit. fold cr0.
  match goal with
  | |- context [pbind ?p ?f] => destruct (run_parts w p f s) as [Hres Htr]
  end.
  rewrite Hres, Htr, Hr. fold s1. cbn iota.
  change (VM.Startup (VM.ForProvider cr0)) with (VM.Startup (VM.ForProvider cr)).
  rewrite Hs. fold upload.
  match goal with
  | |- context [pbind ?p ?f] => destruct (run_parts w p f s1) as [Hres2 Htr2]
  end.
  rewrite Hres2, Htr2.
  destruct (result w upload s1) as [[res|] [e|]]; cbn [fst snd];
    try (destruct (negb (ExitCode res =? 0)%Z));
    unfold trace, result; cbn; rewrite ?app_nil_r; split; reflexivity.
Qed.

Lemma handleCloudInit_executes (c : VM.external) (cr : VM.VMResource)
  (startup : VM.StartupScript) :
  VM.Startup (VM.ForProvider cr) = Some startup ->
  VM.ScriptContent startup <> EmptyString ->
  VM.CloudInitStatus cr <> "completed" ->
  VM.CloudInitStatus cr <> "failed" ->
  VM.CloudInitStatus cr <> "running" ->
  VM.handleCloudInit c cr = VM.executeCloudInit c cr.
Proof.
  intros Hs Hne H1 H2 H3. unfold VM.handleCloudInit, VM.getCloudInitStatus.
  rewrite Hs.
  apply String.eqb_neq in Hne, H1, H2, H3.
  unfold VM.CloudInitStatusCompleted, VM.CloudInitStatusFailed,
    VM.CloudInitStatusRunning.
  rewrite Hne, H1, H2, H3. reflexivity.
Qed.

(** X15.  What provisioning comes to.  For a resource with a start-up script
    whose status is none of [completed], [failed] and [running],
    [handleCloudInit] never dereferences a nil result, leaves nothing
    open, and ends in one of three ways.  The tunnel is not ready: the
    error "SSH not ready" is returned, the status is [pending] with the
    message "waiting for SSH", the condition is untouched and the script
    was not run.  The script failed: the error is nil, the status is
    [failed], the message is that of the error [UploadAndRunScript]
    returned or the non-zero exit status with the standard error output,
    and the condition is Unavailable with that message cut to 1024 bytes.
    The script ran and exited with status 0: the error is nil, the status
    is [completed] with an empty message and the condition is Available.
    The status is never left at [running]. *)
Theorem handleCloudInit_provisions {S : Type} (w : World S) (s : S)
  (c : VM.external) (cr : VM.VMResource) (startup : VM.StartupScript) :
  VM.Startup (VM.ForProvider cr) = Some startup ->
  VM.ScriptContent startup <> EmptyString ->
  VM.CloudInitStatus cr <> "completed" ->
  VM.CloudInitStatus cr <> "failed" ->
  VM.CloudInitStatus cr <> "running" ->
  exists (cr' : VM.VMResource) (err : option error),
    result w (VM.handleCloudInit c cr) s = VM.Returned (cr', err)
    /\ VM.ExternalName cr' = VM.ExternalName cr
    /\ VM.ForProvider cr' = VM.ForProvider cr
    /\ VM.CloudInitStatus cr' <> "running"
    /\ (forall k : holding, held k (trace w (VM.handleCloudInit c cr) s) = 0)
    /\ ((err = Some (Errorf "SSH not ready")
         /\ VM.CloudInitStatus cr' = "pending"
         /\ VM.CloudInitMessage cr' = "waiting for SSH"
         /\ VM.Ready cr' = VM.Ready cr
         /\ forall cmd stdin out,
              In (cmd, stdin, out)
                (omap runOf (trace w (VM.handleCloudInit c cr) s)) ->
              cmd = "ls -al")
        \/ (err = None
            /\ VM.CloudInitStatus cr' = "failed"
            /\ VM.Ready cr'
               = Some (VM.mkCondition VM.Unavailable
                         (VM.truncateMessage (VM.CloudInitMessage cr')))
            /\ ((exists e : error,
                   VM.CloudInitMessage cr' = "cloud-init failed: " ++ Error e)
                \/ (exists o1 o2 status,
                      omap runOf (trace w (VM.handleCloudInit c cr) s)
                      = [("ls -al", None, o1);
                         (commandLine (VM.Env startup), None, o2)]
                      /\ run_err o2 = RunExitError status
                      /\ status <> 0
                      /\ VM.CloudInitMessage cr'
                         = "exit code " ++ GoStr.Itoa status ++ ": "
                           ++ run_stderr o2)))
        \/ (err = None
            /\ VM.CloudInitStatus cr' = "completed"
            /\ VM.CloudInitMessage cr' = EmptyString
            /\ VM.Ready cr' = Some (VM.mkCondition VM.Available EmptyString)
            /\ exists o1 o2,
                 omap runOf (trace w (VM.handleCloudInit c cr) s)
                 = [("ls -al", None, o1);
                    (commandLine (VM.Env startup), None, o2)]
                 /\ (run_err o2 = RunNil \/ run_err o2 = RunExitError 0))).
Proof.
  intros Hs Hne H1 H2 H3.
  rewrite (handleCloudInit_executes c cr startup Hs Hne H1 H2 H3).
  set (cr0 := VM.setCloudInitStatus cr VM.CloudInitStatusRunning EmptyString).
  destruct (isSSHReady_runs w s c cr0) as (ready & Hr & Hq & Hh & Hls).
  destruct ready.
  - destruct (executeCloudInit_ready w s c cr startup Hs Hr) as [Htr Hres].
    fold cr0 in Htr, Hres.
    set (upload := UploadAndRunScript (VM.buildTunnelConfig c cr0)
                     (VM.ScriptContent startup) (VM.Env startup)) in *.
    set (s1 := final w (VM.isSSHReady c cr0) s) in *.
    destruct (UploadAndRunScript_runs w s1 (VM.buildTunnelConfig c cr0)
                (VM.ScriptContent startup) (VM.Env startup)) as [Hh2 Hshape].
    fold upload in Hh2, Hshape.
    destruct (proj1 Hq eq_refl) as (o1 & Ho1 & _).
    assert (Hheld : forall k, held k (trace w (VM.isSSHReady c cr0) s
                                      ++ trace w upload s1)%list = 0).
    { intros k. rewrite held_app, Hh, Hh2. reflexivity. }
    rewrite Hres, Htr, omap_app, Ho1.
    destruct (result w upload s1) as [[res|] [e|]].
    + eexists _, _. split; [reflexivity|]. cbn.
      repeat (split; [first [reflexivity | discriminate | exact Hheld]|]).
      right; left. repeat (split; [reflexivity|]). left. exists e. reflexivity.
    + destruct Hshape as (o2 & Ho2 & Hc). rewrite Ho2.
      unfold commandResult in Hc.
      destruct (run_err o2) as [|status|err2] eqn:He2; try discriminate Hc;
        injection Hc as <-; cbn [ExitCode Stderr].
      * eexists _, _. split; [reflexivity|]. cbn.
        repeat (split; [first [reflexivity | discriminate | exact Hheld]|]).
        right; right. repeat (split; [reflexivity|]).
        exists o1, o2. split; [reflexivity|]. left. exact He2.
      * destruct (Z.eqb_spec status 0) as [->|Hnz].
        -- eexists _, _. split; [reflexivity|]. cbn.
           repeat (split; [first [reflexivity | discriminate | exact Hheld]|]).
           right; right. repeat (split; [reflexivity|]).
           exists o1, o2. split; [reflexivity|]. right. exact He2.
        -- eexists _, _. split; [reflexivity|]. cbn.
           repeat (split; [first [reflexivity | discriminate | exact Hheld]|]).
           right; left. repeat (split; [reflexivity|]). right.
           exists o1, o2, status. repeat split; try reflexivity; assumption.
    + eexists _, _. split; [reflexivity|]. cbn.
      repeat (split; [first [reflexivity | discriminate | exact Hheld]|]).
      right; left. repeat (split; [reflexivity|]). left. exists e. reflexivity.
    + contradiction.
  - destruct (executeCloudInit_not_ready w s c cr Hr) as [Hres Htr].
    fold cr0 in Hres, Htr. rewrite Hres, Htr.
    eexists _, _. split; [reflexivity|]. cbn.
    repeat (split; [first [reflexivity | discriminate | exact Hh]|]).
    left. repeat (split; [reflexivity|]). exact Hls.
Qed.


(** ** The stream adapter: message boundaries *)

Section StreamBoundaries.
Import Stream.
Local Open Scope list_scope.
Local Open Scope nat_scope.

Variable chunk : list byte -> nat -> nat.
Variable eofWithData : list byte -> nat -> bool.

Abbreviation reader_Read' := (Stream.reader_Read chunk eofWithData).
Abbreviation readNext' := (Stream.readNext chunk eofWithData).
Abbreviation Read' := (Stream.Read chunk eofWithData).
Abbreviation readUntil' := (Stream.readUntil chunk eofWithData).

(** X16.  An empty message reads as the end of the stream.  When the next
    inbound message has no payload, [Read] returns no byte and [io.EOF]
    although the WebSocket is alive; nothing is lost by it, and the [Read]
    after it goes on with the messages that follow. *)
Theorem Read_empty_message (c : wsNetConn) (ms : list message) (len : nat) :
  reader c = None -> down c = None ->
  inbound c = mkMessage [] None :: ms ->
  exists c' : wsNetConn,
    Read' c len = (c', [], Some EOF)
    /\ inbound c' = ms
    /\ pending c' = pending c
    /\ Read' c' len = Read' (mkWsNetConn None ms (outbound c) None) len.
Proof.
  destruct c as [rd inb outb dn]. cbn. intros -> -> ->.
  eexists. split; [reflexivity|]. cbn. split; [reflexivity|].
  split; reflexivity.
Qed.

(** X17.  A message the transport broke off stops the stream for good.  Once
    the bytes received of it have been handed over, [Read] returns the
    error and no byte, and leaves the adapter as it was: every later
    [Read] returns the same error, and the messages that arrived after the
    broken one are never delivered. *)
Theorem Read_fault_is_sticky (c : wsNetConn) (r : msgReader) (e : string)
  (len : nat) :
  reader c = Some r -> rest r = [] -> rfault r = Some e ->
  Read' c len = (c, [], Some (IOErr e))
  /\ forall (fuel want : nat),
       readUntil' (S fuel) c len (S want) = (c, [], Failed (IOErr e)).
Proof.
  intros Hr Hn Hf.
  assert (HR : Read' c len = (c, [], Some (IOErr e))).
  { unfold Stream.Read, Stream.reader_Read. rewrite Hr, Hn, Hf.
    destruct c as [rd inb outb dn]. cbn in Hr. subst rd. reflexivity. }
  split; [exact HR|].
  intros fuel want. cbn [Stream.readUntil]. rewrite HR. reflexivity.
Qed.

Hypothesis chunk_progress :
  forall (unread : list byte) (len : nat),
    unread <> [] -> 0 < len -> 0 < chunk unread len.
Hypothesis late_EOF :
  forall (unread : list byte) (len : nat), eofWithData unread len = false.

Lemma reader_Read_late (r r' : msgReader) (len : nat) (out : list byte)
  (err : option ioerr) :
  rest r <> [] -> rfault r = None ->
  reader_Read' r len = (out, r', err) -> err = None.
Proof.
  unfold Stream.reader_Read. destruct r as [unread flt]. cbn [rest rfault].
  destruct unread as [|b unread]; [congruence|].
  intros _ -> H. injection H as _ _ <-. rewrite late_EOF.
  now destruct (drop _ _).
Qed.

Lemma readNext_flowing (c c' : wsNetConn) (len : nat) (out : list byte)
  (err : option ioerr) :
  down c = None ->
  Forall (fun m => fault m = None /\ payload m <> []) (inbound c) ->
  inbound c <> [] -> 0 < len ->
  readNext' c len = (c', out, err) ->
  flowing c' /\ 0 < length out /\ err = None.
Proof.
  intros Hd Hall Hne Hlen. unfold Stream.readNext, ws_Reader. rewrite Hd.
  destruct (inbound c) as [|m ms] eqn:Hin; [congruence|].
  inversion Hall as [|m0 ms0 [Hf Hp] Hms]; subst.
  destruct (reader_Read' (mkMsgReader (payload m) (fault m)) len)
    as [[out1 r1] err1] eqn:Hread.
  pose proof (reader_Read_progress chunk eofWithData chunk_progress
                (mkMsgReader (payload m) (fault m)) _ _ _ _ Hp Hlen Hread)
    as Hpos.
  pose proof (reader_Read_late (mkMsgReader (payload m) (fault m))
                _ _ _ _ Hp Hf Hread) as He.
  destruct (reader_Read_prefix chunk eofWithData _ _ _ _ _ Hread)
    as (_ & _ & Hrf & _ & _).
  cbn [rest rfault] in *.
  intros H. injection H as <- <- <-.
  split; [|split; assumption].
  split; [reflexivity|]. split; [exact Hms|]. cbn. congruence.
Qed.

Lemma Read_flowing (c c' : wsNetConn) (len : nat) (out : list byte)
  (err : option ioerr) :
  flowing c -> pending c <> [] -> 0 < len ->
  Read' c len = (c', out, err) ->
  flowing c' /\ 0 < length out /\ err = None.
Proof.
  intros (Hd & Hall & Hrd) Hpend Hlen. unfold pending in Hpend.
  unfold Stream.Read. destruct (reader c) as [r|] eqn:Hr.
  - destruct (rest r) as [|b unread] eqn:Hrest.
    + unfold Stream.reader_Read at 1. rewrite Hrest, Hrd. cbn [length Nat.ltb Nat.leb].
      apply readNext_flowing; try assumption.
      cbn in Hpend |- *.
      intros E. rewrite E in Hpend. now apply Hpend.
    + assert (Hne : rest r <> []) by (rewrite Hrest; discriminate).
      destruct (reader_Read' r len) as [[out1 r1] err1] eqn:Hread.
      pose proof (reader_Read_progress chunk eofWithData chunk_progress
                    _ _ _ _ _ Hne Hlen Hread) as Hpos.
      pose proof (reader_Read_late _ _ _ _ _ Hne Hrd Hread) as ->.
      destruct (reader_Read_prefix chunk eofWithData _ _ _ _ _ Hread)
        as (_ & _ & Hrf & _ & _).
      intros H. injection H as <- <- <-.
      split; [|split; [exact Hpos|reflexivity]].
      split; [exact Hd|]. split; [exact Hall|]. cbn. congruence.
  - apply readNext_flowing; try assumption.
    cbn in Hpend. intros E. rewrite E in Hpend. now apply Hpend.
Qed.

(** X18.  Message boundaries are invisible to the reader.  Over a reader that
    reports the end of a message on the call after its last bytes, with
    any number of whole, non-empty messages waiting, a caller that wants no
    more bytes than are pending gets them, in order of arrival and across
    the boundaries, within as many [Read] calls as it wants bytes, and
    sees no error. *)
Theorem readUntil_flowing (len : nat) (Hlen : 0 < len) (fuel : nat) :
  forall (c : wsNetConn) (want : nat),
    flowing c -> want <= length (pending c) -> want <= fuel ->
    exists (c' : wsNetConn) (out : list byte),
      readUntil' fuel c len want = (c', out, Done)
      /\ out ++ pending c' = pending c
      /\ want <= length out
      /\ flowing c'.
Proof.
  induction fuel as [|fuel IH]; intros c want Ht Hw Hf.
  - assert (want = 0) as -> by lia. exists c, []. repeat split; try apply Ht.
    simpl. lia.
  - destruct want as [|want].
    { exists c, []. repeat split; try apply Ht. simpl. lia. }
    cbn [Stream.readUntil].
    destruct (Read' c len) as [[c1 out1] err1] eqn:HR.
    assert (Hne : pending c <> []).
    { intros E. rewrite E in Hw. simpl in Hw. lia. }
    destruct (Read_flowing _ _ _ _ _ Ht Hne Hlen HR) as (Ht1 & Hpos & ->).
    destruct (Read_no_loss chunk eofWithData _ _ _ _ _ HR) as (Hp & _ & _).
    assert (Hlenp : length (pending c) = length out1 + length (pending c1)).
    { rewrite <- Hp. apply length_app. }
    destruct (IH c1 (S want - length out1) Ht1) as (c2 & more & HU & Hm & Hwm & Hfl);
      try lia.
    rewrite HU. exists c2, (out1 ++ more). split; [reflexivity|].
    split; [now rewrite <- app_assoc, Hm|]. split; [|exact Hfl].
    rewrite length_app. lia.
Qed.

End StreamBoundaries.

Lemma Read_empty_message_witness :
  exists c' : Stream.wsNetConn,
    Stream.Read Stream.fullChunk Stream.lateEOF
      (Stream.mkWsNetConn None
         [Stream.mkMessage [] None; Stream.mkMessage [Byte.x68; Byte.x69] None]
         [] None) 4
    = (c', [], Some Stream.EOF)
    /\ Stream.inbound c' = [Stream.mkMessage [Byte.x68; Byte.x69] None].
Proof.
  destruct (Read_empty_message Stream.fullChunk Stream.lateEOF
              (Stream.mkWsNetConn None
                 [Stream.mkMessage [] None;
                  Stream.mkMessage [Byte.x68; Byte.x69] None] [] None)
              [Stream.mkMessage [Byte.x68; Byte.x69] None] 4
              eq_refl eq_refl eq_refl) as (c' & HR & Hin & _).
  exists c'. split; [exact HR|exact Hin].
Defined.

Lemma Read_fault_is_sticky_witness :
  Stream.Read Stream.fullChunk Stream.lateEOF
    (Stream.mkWsNetConn (Some (Stream.mkMsgReader [] (Some "reset")))
       [Stream.mkMessage [Byte.x68] None] [] None) 4
  = (Stream.mkWsNetConn (Some (Stream.mkMsgReader [] (Some "reset")))
       [Stream.mkMessage [Byte.x68] None] [] None,
     [], Some (Stream.IOErr "reset")).
Proof.
  exact (proj1 (Read_fault_is_sticky Stream.fullChunk Stream.lateEOF
                  (Stream.mkWsNetConn
                     (Some (Stream.mkMsgReader [] (Some "reset")))
                     [Stream.mkMessage [Byte.x68] None] [] None)
                  (Stream.mkMsgReader [] (Some "reset")) "reset" 4
                  eq_refl eq_refl eq_refl)).
Defined.

Lemma readUntil_flowing_witness :
  exists (c' : Stream.wsNetConn) (out : list Stream.byte),
    Stream.readUntil Stream.fullChunk Stream.lateEOF 3
      (Stream.mkWsNetConn None
         [Stream.mkMessage [Byte.x68; Byte.x69] None;
          Stream.mkMessage [Byte.x21] None] [] None) 2 3
    = (c', out, Stream.Done)
    /\ (out ++ Stream.pending c')%list = [Byte.x68; Byte.x69; Byte.x21].
Proof.
  destruct (readUntil_flowing Stream.fullChunk Stream.lateEOF
              (fun _ len _ Hlen => Hlen) (fun _ _ => eq_refl)
              2 (Nat.lt_0_succ 1) 3
              (Stream.mkWsNetConn None
                 [Stream.mkMessage [Byte.x68; Byte.x69] None;
                  Stream.mkMessage [Byte.x21] None] [] None) 3)
    as (c' & out & HU & Hp & _).
  - split; [reflexivity|]. split; [|exact I].
    repeat constructor; discriminate.
  - apply Nat.leb_le. reflexivity.
  - apply Nat.leb_le. reflexivity.
  - exists c', out. split; [exact HU|exact Hp].
Defined.

Lemma isSSHReady_answers_witness :
  exists ready : bool,
    result (scripted (exits 0 EmptyString))
      (VM.isSSHReady testExternal (testVM EmptyString)) tt
    = VM.Returned ready.
Proof.
  destruct (isSSHReady_answers (scripted (exits 0 EmptyString)) tt
              testExternal (testVM EmptyString)) as (ready & Hr & _).
  exists ready. exact Hr.
Defined.

Lemma buildTunnelConfig_complete_witness :
  SetDefaults (VM.buildTunnelConfig testExternal (testVM EmptyString))
  = VM.buildTunnelConfig testExternal (testVM EmptyString).
Proof.
  exact (proj1 (buildTunnelConfig_complete testExternal (testVM EmptyString))).
Defined.

Lemma handleCloudInit_settled_witness :
  run (scripted (exits 0 EmptyString))
    (VM.handleCloudInit testExternal (testVM "running")) tt
  = (VM.Returned
       (VM.SetConditions (testVM "running")
          (VM.mkCondition VM.Creating EmptyString), None),
     tt, []).
Proof.
  refine (proj2 (proj2 (proj2 (handleCloudInit_settled
                   (scripted (exits 0 EmptyString)) tt testExternal
                   (testVM "running")))) _ eq_refl).
  cbn. discriminate.
Defined.

Lemma handleCloudInit_provisions_witness :
  exists (cr' : VM.VMResource) (err : option error),
    result (scripted (exits 0 EmptyString))
      (VM.handleCloudInit testExternal (testVM "pending")) tt
    = VM.Returned (cr', err)
    /\ (forall k : holding,
          held k (trace (scripted (exits 0 EmptyString))
                    (VM.handleCloudInit testExternal (testVM "pending")) tt) = 0).
Proof.
  destruct (handleCloudInit_provisions (scripted (exits 0 EmptyString)) tt
              testExternal (testVM "pending")
              (VM.mkStartupScript "echo hi" [("NAME", "it's")]) eq_refl)
    as (cr' & err & Hr & _ & _ & _ & Hh & _); try (cbn; discriminate).
  exists cr', err. split; [exact Hr|exact Hh].
Defined.
